(** * Time ranges and the cache transfer object of [mutils.cache]

    A shallow embedding of [src/mutils/cache.py] and of
    [CacheItem.saveValidator] from [src/studiolibrarymaya/cacheitem.py].

    Conventions of the embedding:
    - a Python [int] is a [Z];
    - a Python text value (a path, a node name, a message) is the list of
      the code points of its characters, so that [ord] is the identity on
      its elements; names written as literals in the source (dict keys,
      attribute names, local variables) are Rocq strings;
    - a Python dict keyed by such names is a [gmap string _];
    - an exception is a value of [exn]; a computation that may raise
      returns a [result];
    - every call that leaves the two source files (the [maya.cmds]
      commands, [os.path.exists], the Qt dialog, the methods inherited
      from [mutils.Pose] and [baseitem.BaseItem]) is a host event: it is
      answered by a handler over an abstract world, and recorded in a
      trace. *)

From stdpp Require Import base option list gmap strings pretty.
From Stdlib Require Import ZArith NArith Lia.

Local Open Scope Z_scope.

(** ** Text *)

(** A Python string, as the sequence of its code points. *)
Definition pystr := list N.

(** The code points of a literal of the source. *)
Definition codes (s : string) : pystr :=
  (fun a => N.of_nat (Ascii.nat_of_ascii a)) <$> String.list_ascii_of_string s.

(** [str(n)] for an integer. *)
Definition str_of_int (n : Z) : pystr := codes (pretty n).

(** [sep.join(parts)]. *)
Fixpoint str_join (sep : pystr) (parts : list pystr) : pystr :=
  match parts with
  | [] => []
  | [p] => p
  | p :: rest => p ++ sep ++ str_join sep rest
  end.

(** [s.endswith(suffix)] and [s.startswith(prefix)]. *)
Definition startswith (s prefix : pystr) : bool :=
  bool_decide (take (length prefix) s = prefix).

Definition endswith (s suffix : pystr) : bool :=
  startswith (reverse s) (reverse suffix).

(** [os.path.join(a, b)] as [posixpath] computes it for two components. *)
Definition os_path_join (a b : pystr) : pystr :=
  if startswith b (codes "/") then b
  else if bool_decide (a = []) || endswith a (codes "/") then a ++ b
  else a ++ codes "/" ++ b.

(** ** Values, exceptions, results *)

(** The Python values that travel through metadata and keyword arguments;
    [VSeq] is a tuple or a list. *)
#[warnings="-register-all"] Inductive pyval : Type :=
| VNone
| VInt (n : Z)
| VStr (s : pystr)
| VSeq (items : list pyval).

(** [v == "literal"]: a text compares equal only to the same text. *)
Definition py_eq_str (v : pyval) (s : pystr) : bool :=
  match v with
  | VStr t => bool_decide (t = s)
  | _ => false
  end.

(** The exceptions of the module, the built-in ones the code can raise by
    itself, and [HostError] for whatever a host call raises (tagged with
    the name of its class, which [except NameError] inspects). *)
Inductive exn : Type :=
| AnimationTransferError (msg : pystr)
| OutOfBoundsError (msg : pystr) (srcTime dstTime : Z * Z)
| IOError (msg : pystr)
| Exception (msg : pystr)
| AttributeError (cls attr : string)
| UnboundLocalError (var : string)
| TypeError (msg : pystr)
| ValueError (msg : pystr)
| HostError (cls : string) (msg : pystr).

(** [class OutOfBoundsError(AnimationTransferError)]. *)
Definition is_AnimationTransferError (e : exn) : bool :=
  match e with
  | AnimationTransferError _ | OutOfBoundsError _ _ _ => true
  | _ => false
  end.

Inductive result (A : Type) : Type :=
| Ok (a : A)
| Err (e : exn).
Arguments Ok {A} a.
Arguments Err {A} e.

(** ** Module constants *)

Definition MIN_TIME_LIMIT : Z := -10000.
Definition MAX_TIME_LIMIT : Z := 100000.
Definition DEFAULT_FILE_TYPE : pystr := codes "Alembic".

(** [class PasteOption]: the attributes the class body binds. *)
Definition PasteOption : gmap string pyval :=
  <["Import" := VStr (codes "import")]>
    (<["Replace" := VStr (codes "replace")]> ∅).

(** Attribute access on a class: [AttributeError] when it is not bound. *)
Definition getattr (cls : string) (attrs : gmap string pyval) (name : string)
  : result pyval :=
  match attrs !! name with
  | Some v => Ok v
  | None => Err (AttributeError cls name)
  end.

(** ** The time-range helpers *)

Definition clampRange_msg : pystr :=
  codes "The src and dst time do not overlap. Unable to clamp (src=%s, dest=%s)".

Definition clampRange (srcTime dstTime : Z * Z) : result (Z * Z) :=
  let '(srcStart, srcEnd) := srcTime in
  let '(dstStart, dstEnd) := dstTime in
  if (srcStart >? dstEnd) || (srcEnd <? dstStart) then
    Err (OutOfBoundsError clampRange_msg srcTime dstTime)
  else
    let srcStart := if srcStart <? dstStart then dstStart else srcStart in
    let srcEnd := if srcEnd >? dstEnd then dstEnd else srcEnd in
    Ok (srcStart, srcEnd).

(** [start] is [None] or an integer. *)
Definition moveTime (time : Z * Z) (start : option Z) : Z * Z :=
  let '(srcStartTime, srcEndTime) := time in
  let duration := srcEndTime - srcStartTime in
  let startTime :=
    match start with
    | None => srcStartTime
    | Some start => start
    end in
  let endTime := startTime + duration in
  let endTime := if startTime =? endTime then startTime + 1 else endTime in
  (startTime, endTime).

(** [Cache.isAscii]: [all(ord(c) < 128 for c in s)]. *)
Definition isAscii (s : pystr) : bool :=
  forallb (fun c => (c <? 128)%N) s.

(** ** Python operators on values *)

Definition py_is_none (v : pyval) : bool :=
  match v with VNone => true | _ => false end.

(** Truth value of an object, as [if], [or] and [not] test it. *)
Definition py_truthy (v : pyval) : bool :=
  match v with
  | VNone => false
  | VInt n => negb (n =? 0)
  | VStr s => negb (bool_decide (s = []))
  | VSeq l => negb (bool_decide (length l = 0%nat))
  end.

(** [a or b]. *)
Definition py_or (a b : pyval) : pyval := if py_truthy a then a else b.

Definition TypeError_operands : pystr := codes "unsupported operand type(s)".
Definition TypeError_unpack : pystr := codes "cannot unpack non-iterable object".
Definition ValueError_unpack : pystr := codes "wrong number of values to unpack".
Definition TypeError_len : pystr := codes "object has no len()".

(** Lexicographic order of two texts by code point: [true] when [a < b]. *)
Fixpoint codes_ltb (a b : pystr) : bool :=
  match a, b with
  | _, [] => false
  | [], _ :: _ => true
  | x :: a', y :: b' => (x <? y)%N || ((x =? y)%N && codes_ltb a' b')
  end.

(** [a < b] and [a >= b] between integers and between texts. Any other
    pair of operands is reported as the [TypeError] Python 3 raises for
    an integer against [None] or a text; sequences, whose kind (tuple or
    list) the model does not keep, are not ordered here. *)
Definition py_lt (a b : pyval) : result bool :=
  match a, b with
  | VInt x, VInt y => Ok (x <? y)
  | VStr x, VStr y => Ok (codes_ltb x y)
  | _, _ => Err (TypeError TypeError_operands)
  end.

Definition py_ge (a b : pyval) : result bool :=
  match py_lt a b with
  | Ok r => Ok (negb r)
  | Err e => Err e
  end.

Definition py_add (a b : pyval) : result pyval :=
  match a, b with
  | VInt x, VInt y => Ok (VInt (x + y))
  | VStr x, VStr y => Ok (VStr (x ++ y))
  | VSeq x, VSeq y => Ok (VSeq (x ++ y))
  | _, _ => Err (TypeError TypeError_operands)
  end.

Definition py_sub (a b : pyval) : result pyval :=
  match a, b with
  | VInt x, VInt y => Ok (VInt (x - y))
  | _, _ => Err (TypeError TypeError_operands)
  end.

Definition py_len (v : pyval) : result Z :=
  match v with
  | VStr s => Ok (Z.of_nat (length s))
  | VSeq l => Ok (Z.of_nat (length l))
  | _ => Err (TypeError TypeError_len)
  end.

(** [a, b = v]. *)
Definition py_unpack2 (v : pyval) : result (pyval * pyval) :=
  match v with
  | VSeq [a; b] => Ok (a, b)
  | VStr [a; b] => Ok (VStr [a], VStr [b])
  | VSeq _ | VStr _ => Err (ValueError ValueError_unpack)
  | _ => Err (TypeError TypeError_unpack)
  end.

(** [d.get(key)] and [d.get(key, default)]. *)
Definition dict_get (d : gmap string pyval) (key : string) : pyval :=
  default VNone (d !! key).

Definition dict_get_or (d : gmap string pyval) (key : string) (dflt : pyval)
  : pyval :=
  default dflt (d !! key).

(** [s.replace(old, new)] for a non-empty [old]; [skip] counts the
    characters of a match still to be dropped. *)
Fixpoint str_replace_from (old new : pystr) (skip : nat) (s : pystr) : pystr :=
  match s with
  | [] => []
  | c :: t =>
      match skip with
      | S k => str_replace_from old new k t
      | O =>
          if startswith s old
          then new ++ str_replace_from old new (length old - 1) t
          else c :: str_replace_from old new 0 t
      end
  end.

Definition str_replace (s old new : pystr) : pystr :=
  str_replace_from old new 0 s.

(** [os.path.basename(p)]: what follows the last slash. *)
Fixpoint basename (p : pystr) : pystr :=
  match p with
  | [] => []
  | c :: t => if (c =? 47)%N then basename t
              else if existsb (fun d => (d =? 47)%N) t then basename t
              else p
  end.

(** ** The transfer object *)

(** Modelled from the spec: the state of a [mutils.Pose] object (the base
    class of [Cache], whose source is not part of the two files): the
    directory path that identifies the bundle, the metadata dict, and the
    names that are the keys of [self.objects()], in iteration order. *)
Record Cache : Type := mkCache {
  path : pystr;
  metadata : gmap string pyval;
  objects : list pystr
}.

Definition with_path (p : pystr) (c : Cache) : Cache :=
  mkCache p (metadata c) (objects c).

Definition with_metadata (m : gmap string pyval) (c : Cache) : Cache :=
  mkCache (path c) m (objects c).

Definition IMPORT_NAMESPACE : pystr := codes "REMOVE_IMPORT".

(** [Cache.startFrame], [Cache.endFrame], [Cache.poseJsonPath]. *)
Definition startFrame (self : Cache) : pyval :=
  dict_get (metadata self) "startFrame".

Definition endFrame (self : Cache) : pyval :=
  dict_get (metadata self) "endFrame".

Definition poseJsonPath (self : Cache) : pystr :=
  os_path_join (path self) (codes "pose.json").

(** ** The host *)

(** A UI field descriptor and a keyword-argument dict. *)
Abbreviation field := (gmap string pyval).
Abbreviation kwargs := (gmap string pyval).

(** The calls that leave the two source files, indexed by the type of
    what they return. *)
Inductive hostE : Type -> Type :=
(* maya.cmds *)
| FindKeyframe (curves : list pystr) (which : pystr) : hostE Z
| Ls (pattern : pystr) : hostE (option (list pystr))
| LsLong (object : pystr) : hostE unit
| Delete (nodes : list pystr) : hostE unit
| NamespaceInfoLs : hostE (option (list pystr))
| NamespaceSet (ns : pystr) : hostE unit
| NamespaceRm (ns : pystr) : hostE unit
| FileImport (file namespace : pystr) : hostE (list pystr)
| CurrentUnit (kind : string) : hostE pyval
| AbcExport (job : pystr) : hostE unit
| MayaUSDExport (file : pystr) (frameStart frameEnd : Z) : hostE unit
(* pymel and mgear *)
| ImportUSDModules : hostE unit
| PmcSelected : hostE (list pystr)
| GetTopParent (node : pystr) : hostE pystr
| HasAttr (node attr : pystr) : hostE bool
(* os.path, Qt *)
| PathExists (p : pystr) : hostE bool
| GetInt (title label : pystr) (value : Z) : hostE (Z * bool)
(* mutils *)
| SelectedObjectsFrameRange (objs : list pystr) : hostE (option Z * option Z)
| PoseInit : hostE Cache
| PoseRead (self : Cache) (p : pystr) : hostE Cache
| PoseSave (self : Cache) (p : pystr) : hostE Cache
| PoseValidate (self : Cache) (namespaces : pyval) : hostE unit
(* baseitem.BaseItem *)
| BaseSaveValidator (kw : kwargs) : hostE (list field).

(** What the host does with a call: it returns, or raises an exception
    of its own. *)
Inductive answer (T : Type) : Type :=
| Returns (v : T)
| Raises (cls : string) (msg : pystr).
Arguments Returns {T} v.
Arguments Raises {T} cls msg.

Definition event : Type := { T : Type & hostE T }.

Definition ev {T : Type} (e : hostE T) : event := existT T e.

Definition is_FileImport (e : event) : bool :=
  match e with
  | existT _ (FileImport _ _) => true
  | _ => false
  end.

(** Records of the module's logger: a message with the values it is
    formatted with, or an exception object. *)
Inductive level : Type := DEBUG | INFO | WARNING | ERROR.

Inductive logrec : Type :=
| Log (lvl : level) (fmt : pystr) (args : list pyval)
| LogExn (lvl : level) (e : exn).

(** ** Computations *)

(** State passing with exceptions: the state survives a raise. *)
Definition M (S A : Type) : Type := S -> S * result A.

Global Instance M_ret (S : Type) : MRet (M S) :=
  fun A a s => (s, Ok a).

Global Instance M_bind (S : Type) : MBind (M S) :=
  fun A B f m s =>
    match m s with
    | (s', Ok a) => f a s'
    | (s', Err e) => (s', Err e)
    end.

Definition raise {S A : Type} (e : exn) : M S A := fun s => (s, Err e).

Definition lift {S A : Type} (r : result A) : M S A := fun s => (s, r).

(** [try: m  except <clause>: h]; [h e = None] when the clause does not
    catch [e]. *)
Definition try_except {S A : Type} (m : M S A) (h : exn -> option (M S A))
  : M S A :=
  fun s =>
    match m s with
    | (s', Ok a) => (s', Ok a)
    | (s', Err e) =>
        match h e with
        | Some k => k s'
        | None => (s', Err e)
        end
    end.

(** [for x in xs: body x]. *)
Fixpoint for_each {S A : Type} (xs : list A) (body : A -> M S unit) : M S unit :=
  match xs with
  | [] => mret tt
  | x :: rest => body x ;; for_each rest body
  end.

Section Model.

Context {World : Type}.
Context (handle : forall T : Type, hostE T -> World -> World * answer T).

(** The state of a run: the host's world, the calls made so far, the
    log records emitted so far. *)
Record St : Type := mkSt {
  world : World;
  trace : list event;
  logs : list logrec
}.

(** The state of a method call: the run and [self]. *)
Definition Obj : Type := (St * Cache)%type.

Definition call {T : Type} (e : hostE T) : M St T :=
  fun s =>
    let '(w, a) := handle T e (world s) in
    (mkSt w (trace s ++ [ev e]) (logs s),
     match a with
     | Returns v => Ok v
     | Raises cls msg => Err (HostError cls msg)
     end).

Definition logger (r : logrec) : M St unit :=
  fun s => (mkSt (world s) (trace s) (logs s ++ [r]), Ok tt).

(** A function's computation, run inside a method. *)
Definition host {A : Type} (m : M St A) : M Obj A :=
  fun '(s, c) => let '(s', r) := m s in ((s', c), r).

(** A method run on the object [c]: its result with the object as the
    method left it. *)
Definition on {A : Type} (c : Cache) (m : M Obj A) : M St (Cache * A) :=
  fun s =>
    match m (s, c) with
    | ((s', c'), Ok a) => (s', Ok (c', a))
    | ((s', _), Err e) => (s', Err e)
    end.

Definition getSelf : M Obj Cache := fun '(s, c) => ((s, c), Ok c).

Definition setSelf (c : Cache) : M Obj unit := fun '(s, _) => ((s, c), Ok tt).

(** Modelled from the spec: [Pose.setMetadata] (base class, source
    absent) mutates the metadata dict in place, storing [value] under
    [key]. *)
Definition setMetadata (key : string) (value : pyval) : M Obj unit :=
  self ← getSelf;
  setSelf (with_metadata (<[key := value]> (metadata self)) self).

(** Modelled from the spec: [Pose.setPath] (base class, source absent)
    sets the directory path that identifies the bundle. *)
Definition setPath (p : pystr) : M Obj unit :=
  self ← getSelf;
  setSelf (with_path p self).

(** *** Module functions *)

Definition findFirstLastKeyframes (curves : list pystr)
    (time : option (Z * Z)) : M St (Z * Z) :=
  first ← call (FindKeyframe curves (codes "first"));
  last ← call (FindKeyframe curves (codes "last"));
  let result := (first, last) in
  match time with
  | Some time =>
      try_except (lift (clampRange time result))
        (fun error =>
           match error with
           | OutOfBoundsError _ _ _ =>
               Some (logger (LogExn WARNING error) ;; mret result)
           | _ => None
           end)
  | None => mret result
  end.

(** *** [class Cache] *)

(** [Cache.__init__], after [mutils.Pose.__init__] has made the object. *)
Definition Cache_init : M Obj unit :=
  try_except
    (timeUnit ← host (call (CurrentUnit "time"));
     linearUnit ← host (call (CurrentUnit "linear"));
     angularUnit ← host (call (CurrentUnit "angle"));
     setMetadata "timeUnit" timeUnit ;;
     setMetadata "linearUnit" linearUnit ;;
     setMetadata "angularUnit" angularUnit)
    (fun msg =>
       match msg with
       | HostError cls _ =>
           if bool_decide (cls = "NameError")
           then Some (host (logger (LogExn ERROR msg)))
           else None
       | _ => None
       end).

Definition read : M Obj unit :=
  self ← getSelf;
  let path := poseJsonPath self in
  host (logger (Log DEBUG (codes "Reading: " ++ path) [])) ;;
  self' ← host (call (PoseRead self path));
  setSelf self' ;;
  host (logger (Log DEBUG (codes "Reading Done") [])).

Definition fromPath (path : pystr) : M St Cache :=
  cache ← call PoseInit;
  r ← on cache (Cache_init ;; setPath path ;; read);
  mret (fst r).

Definition mayaPath : M Obj pystr :=
  self ← getSelf;
  let mayaPath := os_path_join (path self) (codes "animation.mb") in
  found ← host (call (PathExists mayaPath));
  if negb found
  then mret (os_path_join (path self) (codes "animation.ma"))
  else mret mayaPath.

Definition close : M Obj unit :=
  nodes ← host (call (Ls (IMPORT_NAMESPACE ++ codes ":*")));
  let nodes := default [] nodes in
  (if bool_decide (nodes = []) then mret tt else host (call (Delete nodes))) ;;
  namespaces ← host (call NamespaceInfoLs);
  let namespaces := default [] namespaces in
  if bool_decide (IMPORT_NAMESPACE ∈ namespaces)
  then host (call (NamespaceSet (codes ":"))) ;;
       host (call (NamespaceRm IMPORT_NAMESPACE))
  else mret tt.

Definition open_msg : pystr :=
  codes "Cannot load animation using non-ascii paths.".

(** [Cache.open]; the decorators [unifyUndo] and [restoreSelection]
    (source absent) wrap the call and let its result and exceptions
    through. *)
Definition open : M Obj (list pystr) :=
  close ;;
  p ← mayaPath;
  if negb (isAscii p) then raise (IOError open_msg)
  else
    file ← mayaPath;
    host (call (FileImport file IMPORT_NAMESPACE)).

Definition save_msg_missing : pystr :=
  codes "Please specify a start and end frame!".

Definition save_msg_order : pystr :=
  codes "The start frame cannot be greater than or equal to the end frame!".

Definition save_debug_fmt : pystr :=
  codes "Cache.save(path={0}, time={1}, sampleBy={2}), exportUSD={3}".

(** The job string of [maya.cmds.AbcExport]. *)
Definition abc_command (start end_ : Z) (root_to_objects mayaPath : pystr)
  : pystr :=
  codes "-frameRange " ++ str_of_int start ++ codes " " ++ str_of_int end_
    ++ codes " -uvWrite -stripNamespaces -dataFormat ogawa "
    ++ root_to_objects ++ codes " -file " ++ mayaPath.

(** The loop over [pmc.selected()] that collects the top parents
    carrying the attribute [is_crowd]. *)
Fixpoint crowd_top_nodes (selected : list pystr) : M St (list pystr) :=
  match selected with
  | [] => mret []
  | selection :: rest =>
      topnode ← call (GetTopParent selection);
      crowd ← call (HasAttr topnode (codes "is_crowd"));
      more ← crowd_top_nodes rest;
      mret (if crowd : bool then topnode :: more else more)
  end.

Definition py_time (t : option Z * option Z) : pyval :=
  let v := fun o => match o with Some n => VInt n | None => VNone end in
  VSeq [v (fst t); v (snd t)].

(** The statements of [Cache.save] that follow the frame-range check,
    from [self.setMetadata("endFrame", end)] to [self.setPath(path)];
    [time] is the pair the check has accepted. *)
Definition save_checked (path : pystr) (start end_ : Z) (sampleBy : Z)
    (fileType : pyval) (exportUSD : bool) : M Obj unit :=
  self ← getSelf;
  let objects := objects self in
  setMetadata "endFrame" (VInt end_) ;;
  setMetadata "startFrame" (VInt start) ;;
  let end1 := end_ + 1 in
  host (logger (Log DEBUG save_debug_fmt
          [VStr path; py_time (Some start, Some end_); VInt sampleBy;
           VStr (codes (if exportUSD then "True" else "False"))])) ;;
  let fileName :=
    if py_eq_str fileType (codes "Alembic")
    then codes "cache.abc" else codes "cache.abc" in
  let mayaPath := os_path_join path fileName in
  let posePath := os_path_join path (codes "pose.json") in
  self ← getSelf;
  self' ← host (call (PoseSave self posePath));
  setSelf self' ;;
  host (for_each objects (fun object => call (LsLong object))) ;;
  let root_to_objects :=
    str_join (codes " ") ((fun object => codes "-root " ++ object) <$> objects) in
  host (call (AbcExport (abc_command start end1 root_to_objects mayaPath))) ;;
  (if exportUSD then
     host (call ImportUSDModules) ;;
     selected ← host (call PmcSelected);
     exportList ← host (crowd_top_nodes selected);
     if bool_decide (exportList = [])
     then host (logger (Log WARNING (codes "USD not exported.") []))
     else host (call (MayaUSDExport
                  (str_replace mayaPath (codes ".abc") (codes ".usdc"))
                  start end1))
   else mret tt) ;;
  setPath path.

(** [Cache.save]; [time] is [None] or a pair whose components are
    integers or [None]. The decorators [timing], [unifyUndo],
    [showWaitCursor] and [restoreSelection] (source absent) let the
    result and the exceptions through. *)
Definition save (path : pystr) (time : option (option Z * option Z))
    (sampleBy : Z) (fileType : pyval) (exportUSD : bool) : M Obj unit :=
  self ← getSelf;
  let objects := objects self in
  let fileType := py_or fileType (VStr DEFAULT_FILE_TYPE) in
  time ← match time with
         | None => host (call (SelectedObjectsFrameRange objects))
         | Some t => mret t
         end;
  match time with
  | (Some start, Some end_) =>
      if start >=? end_ then raise (AnimationTransferError save_msg_order)
      else save_checked path start end_ sampleBy fileType exportUSD
  | _ => raise (AnimationTransferError save_msg_missing)
  end.

(** [Cache.load]. *)
Definition load (objects namespaces option : pyval) : M Obj unit :=
  self ← getSelf;
  host (logger (Log INFO (codes "Loading: {0}") [VStr (path self)])) ;;
  let sourceTime := VSeq [startFrame self; endFrame self] in
  host (call (PoseValidate self namespaces)) ;;
  let objects := py_or objects (VSeq []) in
  n ← lift (py_len objects);
  host (logger (Log DEBUG
          (codes "Cache.load(objects=%s, option=%s, namespaces=%s, srcTime=%s)")
          [VInt n; option; namespaces; sourceTime])) ;;
  host (logger (Log INFO (codes "Loaded: {0}") [VStr (path self)])).

(** A call of [load] with keyword arguments: a keyword that is not a
    parameter of the method is a [TypeError]; a parameter that is not
    passed takes its default, [None]. *)
Definition load_params : list string := ["objects"; "namespaces"; "option"].

Fixpoint kwarg (kw : list (string * pyval)) (name : string) : pyval :=
  match kw with
  | [] => VNone
  | (k, v) :: rest => if bool_decide (k = name) then v else kwarg rest name
  end.

Fixpoint first_unexpected (params : list string) (kw : list (string * pyval))
  : option string :=
  match kw with
  | [] => None
  | (k, _) :: rest =>
      if bool_decide (k ∈ params) then first_unexpected params rest else Some k
  end.

Definition unexpected_keyword (k : string) : pystr :=
  codes "load() got an unexpected keyword argument '" ++ codes k ++ codes "'".

Definition load_kw (kw : list (string * pyval)) : M Obj unit :=
  match first_unexpected load_params kw with
  | Some k => raise (TypeError (unexpected_keyword k))
  | None => load (kwarg kw "objects") (kwarg kw "namespaces") (kwarg kw "option")
  end.

(** *** [importAbc] *)

(** The local variables the loop of [importAbc] reads and assigns.
    [startFrame] is a local of the function (it is assigned in the
    loop) and is no parameter: its slot is [None] until an assignment
    binds it. *)
Record locals : Type := mkLocals {
  l_startFrame : option pyval;
  l_isFirstAnim : bool;
  l_option : pyval
}.

(** Reading a local variable: [UnboundLocalError] while it is unbound. *)
Definition read_local {S : Type} (name : string) (slot : option pyval)
  : M S pyval :=
  match slot with
  | Some v => mret v
  | None => raise (UnboundLocalError name)
  end.

Definition newline : pystr := [10%N].

Definition dialog_msg (paths : list pystr) : pystr :=
  codes "Load the following animation in sequence;" ++ newline
    ++ concat (imap (fun i path =>
                       newline ++ codes " " ++ str_of_int (Z.of_nat i)
                         ++ codes ". " ++ basename path) paths)
    ++ newline ++ newline
    ++ codes "Please choose the spacing between each animation.".

(** The body of [for path in paths], from the locals before an
    iteration to the locals after it. *)
Definition importAbc_step (spacing : Z) (objects namespaces : pyval)
    (path : pystr) (l : locals) : M St locals :=
  cache ← fromPath path;
  sf ← read_local "startFrame" (l_startFrame l);
  let sf := if py_is_none sf && l_isFirstAnim l then startFrame cache else sf in
  let option :=
    if py_eq_str (l_option l) (codes "replaceCompletely") && negb (l_isFirstAnim l)
    then VStr (codes "insert") else l_option l in
  r ← on cache (load_kw [("option", option); ("objects", objects);
                          ("startFrame", sf); ("namespaces", namespaces)]);
  let cache := fst r in
  duration ← lift (py_sub (endFrame cache) (startFrame cache));
  step ← lift (py_add duration (VInt spacing));
  sf ← lift (py_add sf step);
  mret (mkLocals (Some sf) false option).

Fixpoint importAbc_loop (spacing : Z) (objects namespaces : pyval)
    (paths : list pystr) (l : locals) : M St unit :=
  match paths with
  | [] => mret tt
  | path :: rest =>
      l' ← importAbc_step spacing objects namespaces path l;
      importAbc_loop spacing objects namespaces rest l'
  end.

Definition importAbc (paths : list pystr) (spacing : Z)
    (objects option namespaces : pyval) (showDialog : bool) : M St unit :=
  let isFirstAnim := true in
  let spacing := if spacing <? 1 then 1 else spacing in
  option ← (if py_is_none option || py_eq_str option (codes "replace all")
            then lift (getattr "PasteOption" PasteOption "ReplaceCompletely")
            else mret option);
  spacing ← (if showDialog then
               r ← call (GetInt (codes "Load animation sequence")
                           (dialog_msg paths) spacing);
               if negb (snd r) then raise (Exception (codes "Dialog canceled!"))
               else mret (fst r)
             else mret spacing);
  importAbc_loop spacing objects namespaces paths
    (mkLocals None isFirstAnim option).

(** *** [CacheItem.saveValidator] *)

Definition byFrame_error : field :=
  <["error" := VStr (codes "The by frame value cannot be less than 1!")]>
    (<["name" := VStr (codes "byFrame")]> ∅).

Definition frameRange_error : field :=
  <["error" := VStr (codes "The start frame cannot be greater than or equal to the end frame!")]>
    (<["name" := VStr (codes "frameRange")]> ∅).

Definition saveValidator (kw : kwargs) : M St (list field) :=
  fields ← call (BaseSaveValidator kw);
  bad ← lift (if py_eq_str (dict_get kw "byFrame") []
              then Ok true
              else py_lt (dict_get_or kw "byFrame" (VInt 1)) (VInt 1));
  let fields := if bad : bool then fields ++ [byFrame_error] else fields in
  r ← lift (py_unpack2 (dict_get_or kw "frameRange" (VSeq [VInt 0; VInt 1])));
  bad ← lift (py_ge (fst r) (snd r));
  let fields := if bad : bool then fields ++ [frameRange_error] else fields in
  mret fields.

End Model.

Arguments mkSt {World} world trace logs.
Arguments world {World} s.
Arguments trace {World} s.
Arguments logs {World} s.

(** ** More of the two files *)

(** [if cond: body]. *)
Definition when {S : Type} (cond : bool) (body : M S unit) : M S unit :=
  if cond then body else mret tt.

(** [str(v)] as [str.format] renders an argument; the rendering of a
    sequence is left to [repr_seq]. *)
Definition py_str (repr_seq : list pyval -> pystr) (v : pyval) : pystr :=
  match v with
  | VNone => codes "None"
  | VInt n => str_of_int n
  | VStr s => s
  | VSeq l => repr_seq l
  end.

(** [l.insert(i, x)]: past the end of the list the element is appended. *)
Definition list_insert_at {A : Type} (i : nat) (x : A) (l : list A) : list A :=
  take i l ++ x :: drop i l.

Definition range_row (value : pystr) : field :=
  <["value" := VStr value]> (<["name" := VStr (codes "Range")]> ∅).

Section MoreModel.

Context {World : Type}.
Context (handle : forall T : Type, hostE T -> World -> World * answer T).

(** [Cache.paths]. *)
Definition paths : M (@Obj World) (list pystr) :=
  self ← getSelf;
  p ← mayaPath handle;
  found ← host (call handle (PathExists p));
  result ← (if found : bool
            then p' ← mayaPath handle; mret [p']
            else mret []);
  let posePath := poseJsonPath self in
  found ← host (call handle (PathExists posePath));
  mret (if found : bool then result ++ [posePath] else result).

(** What [exportAbc] calls outside the two files: [shutil.copyfile],
    [shutil.move], [mutils.Cache.fromObjects] and [Pose.updateMetadata]. *)
Context (copyfile move : pyval -> pystr -> M (@St World) unit).
Context (fromObjects : pyval -> M (@St World) Cache).
Context (updateMetadata : option kwargs -> M (@Obj World) unit).

(** [exportAbc]; [iconPath] and [sequencePath] are texts or [None]. *)
Definition exportAbc (objs : pyval) (path : pystr)
    (time : option (option Z * option Z)) (sampleBy : Z) (fileType : pyval)
    (exportUSD : bool) (metadata : option kwargs)
    (iconPath sequencePath : pyval) : M (@St World) Cache :=
  when (py_truthy iconPath)
       (copyfile iconPath (path ++ codes "/thumbnail.jpg")) ;;
  when (py_truthy sequencePath)
       (move sequencePath (path ++ codes "/sequence")) ;;
  cache ← fromObjects objs;
  r ← on cache (updateMetadata metadata ;;
                save handle path time sampleBy fileType exportUSD);
  mret (fst r).

(** What [CacheItem.loadSchema] calls outside the two files: the
    [loadSchema] of [baseitem.BaseItem], and [repr] of a sequence. *)
Context (BaseItem_loadSchema : M (@St World) (list field)).
Context (repr_seq : list pyval -> pystr).

(** [CacheItem.loadSchema]; [item_path] is [self.path()]. *)
Definition loadSchema (item_path : pystr) : M (@St World) (list field) :=
  schema ← BaseItem_loadSchema;
  cache ← fromPath handle item_path;
  let startFrame := py_or (startFrame cache) (VInt 0) in
  let endFrame := py_or (endFrame cache) (VInt 0) in
  let value := py_str repr_seq startFrame ++ codes " - "
                 ++ py_str repr_seq endFrame in
  mret (list_insert_at 3 (range_row value) schema).

End MoreModel.

(** *** Keyframe insertion *)

(** What a keyframe command is applied to: one curve or a list of them. *)
Inductive target : Type :=
| Curve (name : pystr)
| CurveList (names : list pystr).

(** The [maya.cmds] calls of [insertKeyframe] and [insertStaticKeyframe]:
    [findKeyframe] with its optional [time], [setKeyframe(insert=True)]
    and [keyTangent]. *)
Inductive keyE : Type -> Type :=
| KFindKeyframe (node : target) (time : option (Z * Z)) (which : pystr) : keyE Z
| KSetKeyframe (node : target) (time : Z * Z) : keyE unit
| KKeyTangent (node : target) (time : Z * Z) (ott : pystr) : keyE unit.

Definition kevent : Type := { T : Type & keyE T }.

Definition kev {T : Type} (e : keyE T) : kevent := existT T e.

Section Keyframes.

Context {World : Type}.
Context (khandle : forall T : Type, keyE T -> World -> World * answer T).

Record KSt : Type := mkKSt {
  kworld : World;
  ktrace : list kevent
}.

Definition kcall {T : Type} (e : keyE T) : M KSt T :=
  fun s =>
    let '(w, a) := khandle T e (kworld s) in
    (mkKSt w (ktrace s ++ [kev e]),
     match a with
     | Returns v => Ok v
     | Raises cls msg => Err (HostError cls msg)
     end).

Definition insertStaticKeyframe (curve : pystr) (time : Z * Z) : M KSt unit :=
  let '(startTime, endTime) := time in
  lastFrame ← kcall (KFindKeyframe (Curve curve) None (codes "last"));
  firstFrame ← kcall (KFindKeyframe (Curve curve) None (codes "first"));
  when (firstFrame =? lastFrame)
       (kcall (KSetKeyframe (Curve curve) (startTime, endTime)) ;;
        kcall (KKeyTangent (Curve curve) (startTime, startTime) (codes "step"))) ;;
  when (startTime <? firstFrame)
       (nextFrame ← kcall (KFindKeyframe (Curve curve)
                             (Some (startTime, startTime)) (codes "next"));
        when ((startTime <? nextFrame) && (nextFrame <? endTime))
             (kcall (KSetKeyframe (Curve curve) (startTime, nextFrame)) ;;
              kcall (KKeyTangent (Curve curve) (startTime, startTime)
                       (codes "step")))) ;;
  when (endTime >? lastFrame)
       (previousFrame ← kcall (KFindKeyframe (Curve curve)
                                 (Some (endTime, endTime)) (codes "previous"));
        when ((startTime <? previousFrame) && (previousFrame <? endTime))
             (kcall (KSetKeyframe (Curve curve) (previousFrame, endTime)) ;;
              kcall (KKeyTangent (Curve curve) (previousFrame, previousFrame)
                       (codes "step")))).

Definition insertKeyframe (curves : list pystr) (time : Z * Z) : M KSt unit :=
  let '(startTime, endTime) := time in
  for_each curves (fun curve => insertStaticKeyframe curve time) ;;
  firstFrame ← kcall (KFindKeyframe (CurveList curves)
                        (Some (startTime, startTime)) (codes "first"));
  lastFrame ← kcall (KFindKeyframe (CurveList curves)
                       (Some (endTime, endTime)) (codes "last"));
  when ((firstFrame <? startTime) && (startTime <? lastFrame))
       (kcall (KSetKeyframe (CurveList curves) (startTime, startTime))) ;;
  when ((firstFrame <? endTime) && (endTime <? lastFrame))
       (kcall (KSetKeyframe (CurveList curves) (endTime, endTime))).

End Keyframes.

Arguments mkKSt {World} kworld ktrace.
Arguments kworld {World} _.
Arguments ktrace {World} _.

(** *** [Cache.cleanMayaFile] *)

(** [f.readlines()] on a file opened with [open(path, "r")], from the
    text stored in the file: a line ends at a line feed, at a carriage
    return, or at a carriage return followed by a line feed, and each of
    these line ends is read as one line feed (the universal newlines of
    text mode). The lines are returned with their line feed; the last one
    has none when the text does not end with a line end. [cur] is the
    line being read. *)
Fixpoint readlines_from (cur s : pystr) {struct s} : list pystr :=
  match s with
  | [] => if bool_decide (cur = []) then [] else [cur]
  | c :: t =>
      if (c =? 10)%N then (cur ++ [10%N]) :: readlines_from [] t
      else if (c =? 13)%N then
        (cur ++ [10%N])
          :: match t with
             | [] => []
             | d :: t' =>
                 if (d =? 10)%N then readlines_from [] t'
                 else readlines_from [] t
             end
      else readlines_from (cur ++ [c]) t
  end.

Definition readlines (s : pystr) : list pystr := readlines_from [] s.

(** The loop of [cleanMayaFile] over the lines. *)
Fixpoint clean_lines (lines : list pystr) : list pystr :=
  match lines with
  | [] => []
  | line :: rest =>
      if negb (startswith line (codes "select -ne"))
      then line :: clean_lines rest
      else [codes "// End"]
  end.

Definition no_such_file : pystr := codes "No such file or directory".

(** The files on disk, from their path to the text stored in them;
    [open(path, "r")] raises [IOError] on a path that is not there. *)
Definition read_file (path : pystr) : M (gmap pystr pystr) pystr :=
  fun fs =>
    match fs !! path with
    | Some text => (fs, Ok text)
    | None => (fs, Err (IOError no_such_file))
    end.

(** [open(path, "w")] with [f.writelines(lines)]: the file is replaced by
    the lines one after the other. The lines are those [readlines] gave,
    whose line ends are line feeds already; they are stored as they are,
    the line separator of the platform being the line feed. *)
Definition write_lines (path : pystr) (lines : list pystr)
  : M (gmap pystr pystr) unit :=
  fun fs => (<[path := concat lines]> fs, Ok tt).

(** [Cache.cleanMayaFile]: the stored text is read into lines (line ends
    translated to line feeds), the lines are cut at the first
    [select -ne], and the result is written back. *)
Definition cleanMayaFile (path : pystr) : M (gmap pystr pystr) unit :=
  text ← read_file path;
  let results := clean_lines (readlines text) in
  write_lines path results.

(** *** [Cache.setAnimCurve] and [Cache.animCurve] *)

(** An entry of the dict [self.objects()], in the shape the pose file
    has: the attributes under ["attrs"], each a dict of its own, and
    whatever else the entry holds. *)
Record PoseObject : Type := mkPoseObject {
  po_attrs : option (gmap pystr (gmap string pyval));
  po_other : gmap string pyval
}.

(** The outcome of an indexing [d[key]]. *)
Inductive indexed (A : Type) : Type :=
| Found (a : A)
| KeyError (key : pystr).
Arguments Found {A} a.
Arguments KeyError {A} key.

(** [Cache.setAnimCurve], on the dict [self.objects()] returns. *)
Definition setAnimCurve (name attr curve : pystr)
    (objs : gmap pystr PoseObject) : indexed (gmap pystr PoseObject) :=
  match objs !! name with
  | None => KeyError name
  | Some o =>
      let attrs := default ∅ (po_attrs o) in
      let a := default ∅ (attrs !! attr) in
      Found (<[name := mkPoseObject
                         (Some (<[attr := <["curve" := VStr curve]> a]> attrs))
                         (po_other o)]> objs)
  end.

(** [Cache.animCurve], on the dict [self.attr(name, attr)] returns. *)
Definition animCurve (a : gmap string pyval) (withNamespace : bool)
  : result pyval :=
  let curve := dict_get a "curve" in
  if py_truthy curve && withNamespace
  then py_add (VStr (IMPORT_NAMESPACE ++ codes ":")) curve
  else Ok curve.

(** ** A sample host

    A small scene that answers every call, used to run the functions on
    concrete inputs: two keyframe times, the set of files on disk, and
    whether the command module is importable at all. *)
Record Scene : Type := mkScene {
  firstKey : Z;
  lastKey : Z;
  files : list pystr;
  has_maya : bool
}.

Definition scene_add_file (f : pystr) (w : Scene) : Scene :=
  mkScene (firstKey w) (lastKey w) (f :: files w) (has_maya w).

Definition scene_handle (T : Type) (e : hostE T) (w : Scene) : Scene * answer T :=
  match e in hostE T return Scene * answer T with
  | FindKeyframe _ which =>
      (w, Returns (if bool_decide (which = codes "first")
                   then firstKey w else lastKey w))
  | Ls _ => (w, Returns None)
  | LsLong _ => (w, Returns tt)
  | Delete _ => (w, Returns tt)
  | NamespaceInfoLs => (w, Returns (Some [codes "UI"; codes "shared"]))
  | NamespaceSet _ => (w, Returns tt)
  | NamespaceRm _ => (w, Returns tt)
  | FileImport file ns =>
      if bool_decide (file ∈ files w)
      then (w, Returns [ns ++ codes ":root"])
      else (w, Raises "RuntimeError" (codes "File not found."))
  | CurrentUnit kind =>
      if has_maya w
      then (w, Returns (VStr (codes kind)))
      else (w, Raises "NameError" (codes "name 'maya' is not defined"))
  | AbcExport _ => (w, Returns tt)
  | MayaUSDExport file _ _ => (scene_add_file file w, Returns tt)
  | ImportUSDModules => (w, Returns tt)
  | PmcSelected => (w, Returns [codes "|crowd|agent"])
  | GetTopParent _ => (w, Returns (codes "|crowd"))
  | HasAttr _ _ => (w, Returns true)
  | PathExists p => (w, Returns (bool_decide (p ∈ files w)))
  | GetInt _ _ value => (w, Returns (value, true))
  | SelectedObjectsFrameRange _ => (w, Returns (Some (firstKey w), Some (lastKey w)))
  | PoseInit => (w, Returns (mkCache [] ∅ []))
  | PoseRead self p =>
      if bool_decide (p ∈ files w)
      then (w, Returns (with_metadata
                          (<["endFrame" := VInt (lastKey w)]>
                             (<["startFrame" := VInt (firstKey w)]> (metadata self)))
                          self))
      else (w, Raises "IOError" (codes "No such file or directory"))
  | PoseSave self p =>
      (scene_add_file p w,
       Returns (with_metadata (<["user" := VStr (codes "artist")]> (metadata self)) self))
  | PoseValidate _ _ => (w, Returns tt)
  | BaseSaveValidator kw =>
      (w, Returns (if bool_decide (kw !! "name" = None)
                   then [<["error" := VStr (codes "No name specified.")]>
                           (<["name" := VStr (codes "name")]> ∅)]
                   else []))
  end.

Definition walk_dir : pystr := codes "/lib/walk.cache".

Definition scene0 : Scene :=
  mkScene 10 50 [os_path_join walk_dir (codes "pose.json");
                 os_path_join walk_dir (codes "animation.ma")] true.

Definition st0 : St := mkSt scene0 [] [].

Definition cache0 : Cache := mkCache walk_dir ∅ [codes "ctl_L"; codes "ctl_R"].

(** A bundle stored under a directory with an accented name. *)
Definition accent_dir : pystr := codes "/lib/" ++ [233%N; 116%N; 233%N].

Definition cache_accent : Cache := mkCache accent_dir ∅ [].



Definition saved0 : St * Cache :=
  fst (save scene_handle walk_dir (Some (Some 1, Some 20)) 1 VNone true
         (st0, cache0)).

Definition kwargs0 : kwargs :=
  <["frameRange" := VSeq [VInt 5; VInt 5]]>
    (<["byFrame" := VInt 0]> (<["name" := VStr (codes "walk")]> ∅)).

(** The file operations [exportAbc] uses, on the sample scene: a copy or
    a move puts the destination among the files; the cache built from
    the objects holds their names; the metadata passed in is merged
    into the metadata of the cache. *)
Definition scene_put_file (src : pyval) (dst : pystr) : M (@St Scene) unit :=
  fun s => (mkSt (scene_add_file dst (world s)) (trace s) (logs s), Ok tt).

Definition scene_fromObjects (objs : pyval) : M (@St Scene) Cache :=
  mret (mkCache []
          (<["timeUnit" := VStr (codes "film")]> ∅)
          (match objs with
           | VSeq l => omap (fun v => match v with VStr n => Some n | _ => None end) l
           | _ => []
           end)).

Definition scene_updateMetadata (md : option kwargs) : M (@Obj Scene) unit :=
  match md with
  | Some d => fun '(s, c) => ((s, with_metadata (d ∪ metadata c) c), Ok tt)
  | None => raise (TypeError (codes "'NoneType' object is not iterable"))
  end.

Definition description0 : kwargs :=
  <["description" := VStr (codes "walk cycle")]> ∅.

Definition exported0 : @St Scene * result Cache :=
  exportAbc scene_handle scene_put_file scene_put_file scene_fromObjects
    scene_updateMetadata (VSeq [VStr (codes "ctl_L"); VStr (codes "ctl_R")])
    walk_dir (Some (Some 1, Some 20)) 1 VNone false (Some description0)
    (VStr (codes "/tmp/thumb.jpg")) VNone st0.

Definition refused0 : @St Scene * result Cache :=
  exportAbc scene_handle scene_put_file scene_put_file scene_fromObjects
    scene_updateMetadata (VSeq [VStr (codes "ctl_L")])
    walk_dir (Some (Some 20, Some 20)) 1 VNone false (Some description0)
    (VStr (codes "/tmp/thumb.jpg")) VNone st0.

Definition exported_cache0 : Cache :=
  match snd exported0 with
  | Ok c => c
  | Err _ => cache0
  end.

Definition loaded_cache0 : Cache :=
  match snd (fromPath scene_handle walk_dir st0) with
  | Ok c => c
  | Err _ => cache0
  end.

(** A base schema of four rows, and a rendering of sequences. *)
Definition schema_row (name : string) : field :=
  <["name" := VStr (codes name)]> ∅.

Definition schema0 : list field :=
  [schema_row "Name"; schema_row "Owner"; schema_row "Created";
   schema_row "Comment"].

Definition scene_repr_seq (l : list pyval) : pystr := codes "[...]".

(** A curve with keys at two times, for the keyframe commands: the
    world is the pair of its first and last key. *)
Definition curve_handle (T : Type) (e : keyE T) (w : Z * Z)
  : (Z * Z) * answer T :=
  match e in keyE T return (Z * Z) * answer T with
  | KFindKeyframe _ _ which =>
      (w, Returns (if bool_decide (which = codes "first")
                      || bool_decide (which = codes "next")
                   then fst w else snd w))
  | KSetKeyframe _ t => ((Z.min (fst w) (fst t), Z.max (snd w) (snd t)), Returns tt)
  | KKeyTangent _ _ _ => (w, Returns tt)
  end.

Definition kst0 : @KSt (Z * Z) := mkKSt (1, 100) [].

(** A scene file of three lines, the second a [select -ne] command and
    the first ended by a carriage return and a line feed, and one without
    such a line. *)
Definition scene_text : pystr :=
  codes "createNode animCurveTL -n ctl_L_tx;" ++ [13%N; 10%N]
    ++ codes "select -ne :time1;" ++ [10%N]
    ++ codes "setAttr .o 1;" ++ [10%N].

Definition clean_text : pystr :=
  codes "createNode animCurveTL -n ctl_L_tx;" ++ [10%N] ++ codes "// End".

Definition disk0 : gmap pystr pystr :=
  <[codes "/lib/b.ma" := clean_text]> (<[codes "/lib/a.ma" := scene_text]> ∅).

(** The objects of a pose: one control with a translate attribute. *)
Definition pose_ctl0 : PoseObject :=
  mkPoseObject
    (Some (<[codes "tx" := <["value" := VInt 3]>
                             (<["type" := VStr (codes "double")]> ∅)]> ∅))
    ∅.

Definition pose_objects0 : gmap pystr PoseObject :=
  <[codes "ctl_L" := pose_ctl0]> ∅.

(** ** Vocabulary of the statements *)

(** [stable f m]: running [m] leaves the observation [f] of the state as
    it was, whether [m] returns or raises. *)
Definition stable {S A X : Type} (f : S -> X) (m : M S A) : Prop :=
  forall s, f (fst (m s)) = f s.

(** [quiet m]: whatever [m] raises is no [AnimationTransferError]. *)
Definition quiet {S A : Type} (m : M S A) : Prop :=
  forall s s' e, m s = (s', Err e) -> is_AnimationTransferError e = false.

(** The scene files imported so far. *)
Definition imports {World : Type} (s : @St World) : list event :=
  List.filter is_FileImport (trace s).

(** The records [Cache.load] emits when it is entered. *)
Definition is_load_record (r : logrec) : bool :=
  match r with
  | Log INFO fmt _ => bool_decide (fmt = codes "Loading: {0}")
  | _ => false
  end.

Definition load_records {World : Type} (s : @St World) : list logrec :=
  List.filter is_load_record (logs s).

(** The entry of the keyword arguments under ["byFrame"]: absent, the
    empty text of a field being edited, or an integer. *)
Inductive byFrameArg : Type :=
| ByFrameAbsent
| ByFrameEmpty
| ByFrameInt (n : Z).

Definition byFrame_entry (a : byFrameArg) : option pyval :=
  match a with
  | ByFrameAbsent => None
  | ByFrameEmpty => Some (VStr [])
  | ByFrameInt n => Some (VInt n)
  end.

Definition byFrame_rejected (a : byFrameArg) : bool :=
  match a with
  | ByFrameAbsent => false
  | ByFrameEmpty => true
  | ByFrameInt n => n <? 1
  end.

(** The entry under ["frameRange"]: absent, or a pair of integers. *)
Definition frameRange_entry (r : option (Z * Z)) : option pyval :=
  (fun t => VSeq [VInt (fst t); VInt (snd t)]) <$> r.

(** [Pose.save] leaves the two frame annotations as it finds them. *)
Definition PoseSave_keeps_frames {World : Type}
    (handle : forall T : Type, hostE T -> World -> World * answer T) : Prop :=
  forall (c c' : Cache) (p : pystr) (w w' : World),
    handle Cache (PoseSave c p) w = (w', Returns c') ->
    metadata c' !! "startFrame" = metadata c !! "startFrame"
    /\ metadata c' !! "endFrame" = metadata c !! "endFrame".

(** What [os.path.exists] answers for a path in a given world. *)
Definition exists_on {World : Type}
    (handle : forall T : Type, hostE T -> World -> World * answer T)
    (w : World) (p : pystr) : bool :=
  match snd (handle bool (PathExists p) w) with
  | Returns b => b
  | Raises _ _ => false
  end.

(** [os.path.exists] is a probe: it returns, and leaves the world as it
    is. *)
Definition PathExists_probes {World : Type}
    (handle : forall T : Type, hostE T -> World -> World * answer T) : Prop :=
  forall (p : pystr) (w : World),
    handle bool (PathExists p) w = (w, Returns (exists_on handle w p)).

Definition is_AbcExport (e : event) : bool :=
  match e with
  | existT _ (AbcExport _) => true
  | _ => false
  end.

(** The Alembic export jobs handed to the host so far. *)
Definition exports {World : Type} (s : @St World) : list event :=
  List.filter is_AbcExport (trace s).

(** [host_only m]: whatever [m] raises was raised by the host. *)
Definition host_only {S A : Type} (m : M S A) : Prop :=
  forall s s' e, m s = (s', Err e) -> exists cls msg, e = HostError cls msg.

(** A keyframe command stays within bounds: it is applied to one of
    the [nodes]; a key it inserts spans times between [lo] and [hi]; a
    tangent it sets is a ["step"] out-tangent at one time between [lo]
    and [hi]. *)
Definition key_edit_within (nodes : target -> Prop) (lo hi : Z) (e : kevent)
  : Prop :=
  match e with
  | existT _ (KFindKeyframe node _ _) => nodes node
  | existT _ (KSetKeyframe node t) =>
      nodes node /\ lo <= fst t <= hi /\ lo <= snd t <= hi
  | existT _ (KKeyTangent node t ott) =>
      nodes node /\ fst t = snd t /\ lo <= fst t <= hi /\ ott = codes "step"
  end.

(** [emits P m]: the commands [m] sends to the host, whether it returns
    or raises, all satisfy [P]. *)
Definition emits {World A : Type} (P : kevent -> Prop) (m : M (@KSt World) A)
  : Prop :=
  forall s, exists l, ktrace (fst (m s)) = ktrace s ++ l /\ Forall P l.

(** A line of a scene file that starts a [select -ne] command. *)
Definition is_select (line : pystr) : bool :=
  startswith line (codes "select -ne").

(** The shape of what [readlines] returns: every line but the last ends
    with its only line feed; the last one does, or is a non-empty rest
    without line feed; no line holds a carriage return. *)
Definition no_line_end (s : pystr) : Prop := (10%N ∉ s) /\ (13%N ∉ s).

Definition terminated (line : pystr) : Prop :=
  exists body, line = body ++ [10%N] /\ no_line_end body.

Fixpoint lines_wf (lines : list pystr) : Prop :=
  match lines with
  | [] => True
  | line :: rest =>
      match rest with
      | [] => terminated line \/ (line <> [] /\ no_line_end line)
      | _ :: _ => terminated line /\ lines_wf rest
      end
  end.

(** * Properties *)

(** ** The model at work on concrete inputs *)

Example clampRange_doc1 : clampRange (15, 35) (20, 30) = Ok (20, 30).
Proof. reflexivity. Qed.

Example moveTime_doc : moveTime (15, 35) (Some 5) = (5, 25).
Proof. reflexivity. Qed.

Example str_of_int_neg : str_of_int (-12) = codes "-12".
Proof. vm_compute. reflexivity. Qed.

Example os_path_join_ex :
  os_path_join (codes "/tmp/a") (codes "pose.json") = codes "/tmp/a/pose.json".
Proof. vm_compute. reflexivity. Qed.

Example str_replace_ex :
  str_replace (codes "/a.abc/cache.abc") (codes ".abc") (codes ".usdc")
  = codes "/a.usdc/cache.usdc".
Proof. vm_compute. reflexivity. Qed.

Example basename_ex : basename (codes "/tmp/a/walk.anim") = codes "walk.anim".
Proof. vm_compute. reflexivity. Qed.

Example save_runs :
  snd (save scene_handle walk_dir (Some (Some 1, Some 20)) 1 VNone true (st0, cache0))
  = Ok tt.
Proof. vm_compute. reflexivity. Qed.

Example open_runs :
  snd (open scene_handle (st0, cache0)) = Ok [codes "REMOVE_IMPORT:root"].
Proof. vm_compute. reflexivity. Qed.

Example fromPath_runs :
  snd (fromPath scene_handle walk_dir st0)
  = Ok (mkCache walk_dir
          (<["endFrame" := VInt 50]>
             (<["startFrame" := VInt 10]>
                (<["angularUnit" := VStr (codes "angle")]>
                   (<["linearUnit" := VStr (codes "linear")]>
                      (<["timeUnit" := VStr (codes "time")]> ∅))))) []).
Proof. vm_compute. reflexivity. Qed.

Example importAbc_empty :
  snd (importAbc scene_handle [] 1 VNone (VStr (codes "replace")) VNone false st0)
  = Ok tt.
Proof. vm_compute. reflexivity. Qed.

Example importAbc_default_option :
  snd (importAbc scene_handle [walk_dir] 1 VNone VNone VNone false st0)
  = Err (AttributeError "PasteOption" "ReplaceCompletely").
Proof. vm_compute. reflexivity. Qed.

Example importAbc_replace :
  snd (importAbc scene_handle [walk_dir] 1 VNone (VStr (codes "replace")) VNone
         false st0)
  = Err (UnboundLocalError "startFrame").
Proof. vm_compute. reflexivity. Qed.

Example importAbc_missing_bundle :
  snd (importAbc scene_handle [codes "/lib/none"] 1 VNone
         (VStr (codes "replace")) VNone false st0)
  = Err (HostError "IOError" (codes "No such file or directory")).
Proof. vm_compute. reflexivity. Qed.

Example findFirstLastKeyframes_overlap :
  snd (findFirstLastKeyframes scene_handle [codes "ctl_L_tx"] (Some (5, 30)) st0)
  = Ok (10, 30).
Proof. vm_compute. reflexivity. Qed.

Example load_kw_startFrame :
  snd (load_kw scene_handle
         [("option", VNone); ("objects", VNone); ("startFrame", VInt 1);
          ("namespaces", VNone)] (st0, cache0))
  = Err (TypeError (codes "load() got an unexpected keyword argument 'startFrame'")).
Proof. vm_compute. reflexivity. Qed.

Example saveValidator_defaults :
  snd (saveValidator scene_handle (<["name" := VStr (codes "walk")]> ∅) st0)
  = Ok [].
Proof. vm_compute. reflexivity. Qed.

(** ** The time-range helpers *)

Lemma isAscii_Forall (s : pystr) :
  isAscii s = true <-> Forall (fun c => (c < 128)%N) s.
Proof.
  unfold isAscii. rewrite forallb_forall, Forall_forall.
  split; intros H c Hc.
  - apply N.ltb_lt, H. by apply list_elem_of_In.
  - apply N.ltb_lt, H. by apply list_elem_of_In.
Qed.

Lemma isAscii_false (s : pystr) :
  (exists c, c ∈ s /\ (128 <= c)%N) -> isAscii s = false.
Proof.
  intros (c & Hc & Hge). apply not_true_is_false. rewrite isAscii_Forall.
  rewrite Forall_forall. intros H. specialize (H c Hc). lia.
Qed.

(** What [clampRange] computes, by cases on the overlap test. *)
Lemma clampRange_eq (srcStart srcEnd dstStart dstEnd : Z) :
  clampRange (srcStart, srcEnd) (dstStart, dstEnd)
  = (if decide (srcStart > dstEnd \/ srcEnd < dstStart)
     then Err (OutOfBoundsError clampRange_msg
                 (srcStart, srcEnd) (dstStart, dstEnd))
     else Ok (Z.max srcStart dstStart, Z.min srcEnd dstEnd)).
Proof.
  unfold clampRange.
  destruct (Z.gtb_spec srcStart dstEnd) as [Hg | Hg];
    destruct (Z.ltb_spec srcEnd dstStart) as [Hl | Hl]; cbn [orb];
    case_decide; try lia; try reflexivity.
  f_equal.
  destruct (Z.ltb_spec srcStart dstStart), (Z.gtb_spec srcEnd dstEnd);
    f_equal; lia.
Qed.

(** C1. [clampRange] raises [OutOfBoundsError] exactly when the source
    range starts after the destination ends or ends before it starts;
    otherwise it returns the intersection of the two ranges, the later
    start with the earlier end. The two examples of the docstring hold. *)
Theorem clampRange_intersection (srcStart srcEnd dstStart dstEnd : Z) :
  clampRange (srcStart, srcEnd) (dstStart, dstEnd)
  = (if decide (srcStart > dstEnd \/ srcEnd < dstStart)
     then Err (OutOfBoundsError clampRange_msg
                 (srcStart, srcEnd) (dstStart, dstEnd))
     else Ok (Z.max srcStart dstStart, Z.min srcEnd dstEnd))
  /\ ((exists e, clampRange (srcStart, srcEnd) (dstStart, dstEnd) = Err e)
      <-> (srcStart > dstEnd \/ srcEnd < dstStart))
  /\ clampRange (15, 35) (20, 30) = Ok (20, 30)
  /\ clampRange (25, 45) (20, 30) = Ok (25, 30).
Proof.
  split; [apply clampRange_eq |]. split; [| split; reflexivity].
  rewrite clampRange_eq. case_decide as Hd; split.
  - intros _. exact Hd.
  - intros _. eauto.
  - intros [e He]. discriminate He.
  - intros Hd'. contradiction.
Qed.

(** What [moveTime] computes for an integer start. *)
Lemma moveTime_Some (s e start : Z) :
  moveTime (s, e) (Some start)
  = (if decide (s = e) then (start, start + 1) else (start, start + (e - s))).
Proof.
  unfold moveTime. case_decide as Hd.
  - subst e. replace (start + (s - s)) with start by lia.
    by rewrite Z.eqb_refl.
  - destruct (Z.eqb_spec start (start + (e - s))); [lia | reflexivity].
Qed.

(** C2 fails as stated: a zero-duration range is not shifted to
    [(start, start + 0)]. *)
Lemma moveTime_zero_duration_not_preserved :
  moveTime (3, 3) (Some 5) <> (5, 5 + (3 - 3)).
Proof. vm_compute. discriminate. Qed.

(** C2, amended. For integers [s], [e] and [start], [moveTime] returns
    [(start, start + (e - s))] when [s] differs from [e], and
    [(start, start + 1)] when [s = e]; [moveTime((15,35), 5)] is [(5,25)]. *)
Theorem moveTime_shift (s e start : Z) :
  moveTime (s, e) (Some start)
  = (if decide (s = e) then (start, start + 1) else (start, start + (e - s)))
  /\ moveTime (15, 35) (Some 5) = (5, 25).
Proof.
  split; [apply moveTime_Some | reflexivity].
Qed.

(** C3. For a range with [s <= e] and an integer [start], the pair
    [moveTime] returns has its end after its start, and for [s = e] it is
    exactly [(start, start + 1)]. *)
Theorem moveTime_end_after_start (s e start : Z) (Hse : s <= e) :
  snd (moveTime (s, e) (Some start)) > fst (moveTime (s, e) (Some start))
  /\ (s = e -> moveTime (s, e) (Some start) = (start, start + 1)).
Proof.
  rewrite moveTime_Some.
  case_decide; cbn [fst snd]; split; (lia || tauto || (intros; lia)).
Qed.

Lemma moveTime_end_after_start_witness :
  4 <= 4
  /\ snd (moveTime (4, 4) (Some 7)) > fst (moveTime (4, 4) (Some 7))
  /\ (4 = 4 -> moveTime (4, 4) (Some 7) = (7, 7 + 1)).
Proof. split; [lia | apply (moveTime_end_after_start 4 4 7); lia]. Defined.

(** C10. On a range with [e > s], [moveTime] with [None] as the start is
    the identity, and moving twice to the same start [t] is the same as
    moving once. *)
Theorem moveTime_None_identity (s e : Z) (Hse : e > s) :
  moveTime (s, e) None = (s, e)
  /\ forall t : Z,
      moveTime (moveTime (s, e) (Some t)) (Some t) = moveTime (s, e) (Some t).
Proof.
  split.
  - unfold moveTime.
    destruct (Z.eqb_spec s (s + (e - s))); [lia | f_equal; lia].
  - intros t. rewrite (moveTime_Some s e t).
    case_decide; [lia |].
    rewrite moveTime_Some.
    case_decide; [lia | f_equal; lia].
Qed.

Lemma moveTime_None_identity_witness :
  35 > 15
  /\ moveTime (15, 35) None = (15, 35)
  /\ forall t : Z,
      moveTime (moveTime (15, 35) (Some t)) (Some t) = moveTime (15, 35) (Some t).
Proof. split; [lia | apply (moveTime_None_identity 15 35); lia]. Defined.

(** ** Reasoning about computations *)

Lemma bind_run {S A B : Type} (m : M S A) (f : A -> M S B) (s : S) :
  (m ≫= f) s
  = match m s with
    | (s', Ok a) => f a s'
    | (s', Err e) => (s', Err e)
    end.
Proof. reflexivity. Qed.

Section Combinators.

Context {S X : Type} (f : S -> X).

Lemma stable_ret {A : Type} (a : A) : stable f (mret a : M S A).
Proof. intros s. reflexivity. Qed.

Lemma stable_raise {A : Type} (e : exn) : stable f (raise e : M S A).
Proof. intros s. reflexivity. Qed.

Lemma stable_lift {A : Type} (r : result A) : stable f (lift r : M S A).
Proof. intros s. reflexivity. Qed.

Lemma stable_bind {A B : Type} (m : M S A) (k : A -> M S B) :
  stable f m -> (forall a, stable f (k a)) -> stable f (m ≫= k).
Proof.
  intros Hm Hk s. rewrite bind_run. specialize (Hm s).
  destruct (m s) as [s1 [a | e]]; cbn [fst] in *.
  - rewrite Hk. exact Hm.
  - exact Hm.
Qed.

Lemma stable_try_except {A : Type} (m : M S A) (h : exn -> option (M S A)) :
  stable f m -> (forall e k, h e = Some k -> stable f k) ->
  stable f (try_except m h).
Proof.
  intros Hm Hh s. unfold try_except. specialize (Hm s).
  destruct (m s) as [s1 [a | e]]; cbn [fst] in *; [exact Hm |].
  destruct (h e) as [k |] eqn:Ek; cbn [fst]; [| exact Hm].
  rewrite (Hh e k Ek). exact Hm.
Qed.

Lemma stable_for_each {A : Type} (xs : list A) (body : A -> M S unit) :
  (forall x, stable f (body x)) -> stable f (for_each xs body).
Proof.
  intros Hb. induction xs as [| x xs IH]; cbn [for_each].
  - apply stable_ret.
  - apply stable_bind; [apply Hb | intros _; exact IH].
Qed.

Lemma quiet_ret {A : Type} (a : A) : quiet (mret a : M S A).
Proof. intros s s' e H. discriminate H. Qed.

Lemma quiet_bind {A B : Type} (m : M S A) (k : A -> M S B) :
  quiet m -> (forall a, quiet (k a)) -> quiet (m ≫= k).
Proof.
  intros Hm Hk s s' e. rewrite bind_run.
  destruct (m s) as [s1 [a | e1]] eqn:Em.
  - apply Hk.
  - intros [= <- <-]. exact (Hm _ _ _ Em).
Qed.

Lemma quiet_for_each {A : Type} (xs : list A) (body : A -> M S unit) :
  (forall x, quiet (body x)) -> quiet (for_each xs body).
Proof.
  intros Hb. induction xs as [| x xs IH]; cbn [for_each].
  - apply quiet_ret.
  - apply quiet_bind; [apply Hb | intros _; exact IH].
Qed.

End Combinators.

(** ** The functions that talk to the host *)

Section Properties.

Context {World : Type}.
Context (handle : forall T : Type, hostE T -> World -> World * answer T).

Abbreviation St := (@St World).
Abbreviation Obj := (@Obj World).

Lemma call_run {T : Type} (e : hostE T) (s : St) :
  call handle e s
  = (mkSt (fst (handle T e (world s))) (trace s ++ [ev e]) (logs s),
     match snd (handle T e (world s)) with
     | Returns v => Ok v
     | Raises cls msg => Err (HostError cls msg)
     end).
Proof. unfold call. by destruct (handle T e (world s)). Qed.

Lemma stable_call_imports {T : Type} (e : hostE T) :
  is_FileImport (ev e) = false -> stable imports (call handle e).
Proof.
  intros He s. rewrite call_run. unfold imports. cbn [fst trace].
  rewrite List.filter_app. cbn [List.filter]. rewrite He. apply app_nil_r.
Qed.

Lemma stable_logger_imports (r : logrec) : stable imports (logger r : M St unit).
Proof. intros s. reflexivity. Qed.

Lemma stable_call_loads {T : Type} (e : hostE T) :
  stable load_records (call handle e).
Proof. intros s. rewrite call_run. reflexivity. Qed.

Lemma stable_logger_loads (r : logrec) :
  is_load_record r = false -> stable load_records (logger r : M St unit).
Proof.
  intros Hr s. unfold load_records, logger. cbn [fst logs].
  rewrite List.filter_app. cbn [List.filter]. rewrite Hr. apply app_nil_r.
Qed.

Lemma stable_host {X A : Type} (f : St -> X) (m : M St A) :
  stable f m -> stable (fun o : Obj => f (fst o)) (host m).
Proof.
  intros Hm [s c]. unfold host. specialize (Hm s).
  by destruct (m s) as [s' r].
Qed.

Lemma stable_host_self {X A : Type} (g : Cache -> X) (m : M St A) :
  stable (fun o : Obj => g (snd o)) (host m).
Proof. intros [s c]. unfold host. by destruct (m s) as [s' r]. Qed.

Lemma stable_getSelf {X : Type} (f : Obj -> X) : stable f getSelf.
Proof. by intros [s c]. Qed.

Lemma stable_setSelf {X : Type} (f : St -> X) (c : Cache) :
  stable (fun o : Obj => f (fst o)) (setSelf c).
Proof. by intros [s c']. Qed.

Lemma stable_setMetadata {X : Type} (f : St -> X) (k : string) (v : pyval) :
  stable (fun o : Obj => f (fst o)) (setMetadata k v).
Proof. by intros [s c]. Qed.

Lemma stable_setPath {X : Type} (f : St -> X) (p : pystr) :
  stable (fun o : Obj => f (fst o)) (setPath p).
Proof. by intros [s c]. Qed.

Lemma stable_on {X A : Type} (f : St -> X) (c : Cache) (m : M Obj A) :
  stable (fun o : Obj => f (fst o)) m -> stable f (on c m).
Proof.
  intros Hm s. unfold on. specialize (Hm (s, c)).
  by destruct (m (s, c)) as [[s' c'] [a | e]].
Qed.

(** [close] and [mayaPath] import nothing and leave [self] alone. *)
Lemma close_imports : stable (fun o : Obj => imports (fst o)) (close handle).
Proof.
  unfold close.
  apply stable_bind; [by apply stable_host, stable_call_imports | intros nodes].
  apply stable_bind.
  { case_bool_decide; [apply stable_ret |].
    by apply stable_host, stable_call_imports. }
  intros _.
  apply stable_bind; [by apply stable_host, stable_call_imports | intros nss].
  case_bool_decide; [| apply stable_ret].
  apply stable_bind; [by apply stable_host, stable_call_imports | intros _].
  by apply stable_host, stable_call_imports.
Qed.

Lemma mayaPath_imports : stable (fun o : Obj => imports (fst o)) (mayaPath handle).
Proof.
  unfold mayaPath.
  apply stable_bind; [apply stable_getSelf | intros self].
  apply stable_bind; [by apply stable_host, stable_call_imports | intros found].
  destruct (negb found); apply stable_ret.
Qed.

(** C5. When the host reports the keyframes [first] and [last]:
    without a [time], [findFirstLastKeyframes] returns [(first, last)];
    with a [time] that does not overlap [(first, last)], the
    [OutOfBoundsError] of [clampRange] is caught, logged as a warning and
    [(first, last)] is returned unchanged; with a [time] that overlaps,
    the result of [clampRange(time, (first, last))] is returned. *)
Theorem findFirstLastKeyframes_clamps
    (curves : list pystr) (time : option (Z * Z)) (s : St)
    (w1 w2 : World) (first last : Z)
    (Hfirst : handle Z (FindKeyframe curves (codes "first")) (world s)
              = (w1, Returns first))
    (Hlast : handle Z (FindKeyframe curves (codes "last")) w1
             = (w2, Returns last)) :
  let asked := trace s ++ [ev (FindKeyframe curves (codes "first"));
                           ev (FindKeyframe curves (codes "last"))] in
  findFirstLastKeyframes handle curves time s
  = match time with
    | None => (mkSt w2 asked (logs s), Ok (first, last))
    | Some (a, b) =>
        if decide (a > last \/ b < first)
        then (mkSt w2 asked
                (logs s ++ [LogExn WARNING
                              (OutOfBoundsError clampRange_msg (a, b) (first, last))]),
              Ok (first, last))
        else (mkSt w2 asked (logs s), Ok (Z.max a first, Z.min b last))
    end
  /\ forall a b, ~ (a > last \/ b < first) ->
       clampRange (a, b) (first, last) = Ok (Z.max a first, Z.min b last).
Proof.
  intros asked. split.
  - unfold findFirstLastKeyframes.
    rewrite bind_run, call_run, Hfirst. cbn [fst snd world trace logs].
    rewrite bind_run, call_run. cbn [fst snd world trace logs]. rewrite Hlast.
    cbn [fst snd]. rewrite <- app_assoc. cbn [app]. fold asked.
    destruct time as [[a b] |]; [| reflexivity].
    unfold try_except, lift. rewrite clampRange_eq.
    case_decide; reflexivity.
  - intros a b Hab. rewrite clampRange_eq. by case_decide.
Qed.


(** *** [Cache.save] *)

Lemma quiet_call {T : Type} (e : hostE T) : quiet (call handle e).
Proof.
  intros s s' x. rewrite call_run.
  destruct (snd (handle T e (world s))); intros [= _ <-]; reflexivity.
Qed.

Lemma quiet_logger (r : logrec) : quiet (logger r : M St unit).
Proof. intros s s' x H. discriminate H. Qed.

Lemma quiet_host {A : Type} (m : M St A) : quiet m -> quiet (host m : M Obj A).
Proof.
  intros Hm [s c] s' x. unfold host.
  destruct (m s) as [s1 r] eqn:Em. intros [= _ ->]. exact (Hm _ _ _ Em).
Qed.

Lemma quiet_getSelf : quiet (getSelf : M Obj Cache).
Proof. intros [s c] s' x H. discriminate H. Qed.

Lemma quiet_setSelf (c : Cache) : quiet (setSelf c : M Obj unit).
Proof. intros [s c'] s' x H. discriminate H. Qed.

Lemma quiet_setMetadata (k : string) (v : pyval) :
  quiet (setMetadata k v : M Obj unit).
Proof. intros [s c] s' x H. discriminate H. Qed.

Lemma quiet_setPath (p : pystr) : quiet (setPath p : M Obj unit).
Proof. intros [s c] s' x H. discriminate H. Qed.

Lemma quiet_crowd_top_nodes (selected : list pystr) :
  quiet (crowd_top_nodes handle selected).
Proof.
  induction selected as [| x xs IH]; cbn [crowd_top_nodes].
  - apply quiet_ret.
  - apply quiet_bind; [apply quiet_call | intros topnode].
    apply quiet_bind; [apply quiet_call | intros crowd].
    apply quiet_bind; [exact IH | intros more]. apply quiet_ret.
Qed.

(** Past the frame-range check, [save] raises only what the host raises. *)
Lemma quiet_save_checked (path : pystr) (start end_ sampleBy : Z)
    (fileType : pyval) (exportUSD : bool) :
  quiet (save_checked handle path start end_ sampleBy fileType exportUSD).
Proof.
  unfold save_checked.
  apply quiet_bind; [apply quiet_getSelf | intros self].
  apply quiet_bind; [apply quiet_setMetadata | intros _].
  apply quiet_bind; [apply quiet_setMetadata | intros _].
  apply quiet_bind; [apply quiet_host, quiet_logger | intros _].
  apply quiet_bind; [apply quiet_getSelf | intros self1].
  apply quiet_bind; [apply quiet_host, quiet_call | intros self2].
  apply quiet_bind; [apply quiet_setSelf | intros _].
  apply quiet_bind.
  { apply quiet_host, quiet_for_each. intros x. apply quiet_call. }
  intros _.
  apply quiet_bind; [apply quiet_host, quiet_call | intros _].
  apply quiet_bind; [| intros _; apply quiet_setPath].
  destruct exportUSD; [| apply quiet_ret].
  apply quiet_bind; [apply quiet_host, quiet_call | intros _].
  apply quiet_bind; [apply quiet_host, quiet_call | intros selected].
  apply quiet_bind; [apply quiet_host, quiet_crowd_top_nodes | intros l].
  case_bool_decide.
  - apply quiet_host, quiet_logger.
  - apply quiet_host, quiet_call.
Qed.

(** [save] on a pair of integers: the check, then the rest. *)
Lemma save_pair (path : pystr) (start end_ sampleBy : Z) (fileType : pyval)
    (exportUSD : bool) (o : Obj) :
  save handle path (Some (Some start, Some end_)) sampleBy fileType exportUSD o
  = if decide (start >= end_)
    then (o, Err (AnimationTransferError save_msg_order))
    else save_checked handle path start end_ sampleBy
           (py_or fileType (VStr DEFAULT_FILE_TYPE)) exportUSD o.
Proof.
  destruct o as [s self]. unfold save.
  rewrite bind_run. cbn [getSelf]. rewrite bind_run. cbn [mret M_ret].
  destruct (Z.geb_spec start end_); case_decide; try lia; reflexivity.
Qed.

(** C4, amended. With a [time] of two integers, [Cache.save] raises
    [AnimationTransferError] exactly when [start >= end]: the range with
    [start == end] is refused as well. When it does, nothing has been
    done: the host and the object are as before the call. *)
Theorem save_refuses_unordered_range
    (path : pystr) (start end_ sampleBy : Z) (fileType : pyval)
    (exportUSD : bool) (s : St) (self : Cache) :
  let run := save handle path (Some (Some start, Some end_))
               sampleBy fileType exportUSD (s, self) in
  ((exists e, snd run = Err e /\ is_AnimationTransferError e = true)
   <-> start >= end_)
  /\ (start >= end_ ->
      run = ((s, self), Err (AnimationTransferError save_msg_order))).
Proof.
  intros run. subst run. rewrite save_pair. case_decide as Hd.
  - split; [| reflexivity]. split; [done |]. intros _. eexists. by split.
  - split; [| done]. split; [| done].
    intros (e & He & Hate).
    destruct (save_checked _ _ _ _ _ _ _ _) as [o r] eqn:E.
    cbn [snd] in He. subst r.
    apply quiet_save_checked in E. congruence.
Qed.

Lemma setMetadata_run (k : string) (v : pyval) (s : St) (c : Cache) :
  setMetadata k v (s, c)
  = ((s, with_metadata (<[k := v]> (metadata c)) c), Ok tt).
Proof. reflexivity. Qed.

Lemma stable_setPath_metadata (p : pystr) :
  stable (fun o : Obj => metadata (snd o)) (setPath p).
Proof. by intros [s c]. Qed.

(** What follows [Pose.save] in [save] does not touch the metadata. *)
Lemma save_tail_metadata (path mayaPath job : pystr) (start end1 : Z)
    (objects : list pystr) (exportUSD : bool) :
  stable (fun o : Obj => metadata (snd o))
    (host (for_each objects (fun object => call handle (LsLong object))) ;;
     host (call handle (AbcExport job)) ;;
     (if exportUSD then
        host (call handle ImportUSDModules) ;;
        selected ← host (call handle PmcSelected);
        exportList ← host (crowd_top_nodes handle selected);
        if bool_decide (exportList = [])
        then host (logger (Log WARNING (codes "USD not exported.") []))
        else host (call handle (MayaUSDExport
                     (str_replace mayaPath (codes ".abc") (codes ".usdc"))
                     start end1))
      else mret tt) ;;
     setPath path).
Proof.
  apply stable_bind; [apply (stable_host_self metadata) | intros _].
  apply stable_bind; [apply (stable_host_self metadata) | intros _].
  apply stable_bind; [| intros _; apply stable_setPath_metadata].
  destruct exportUSD; [| apply stable_ret].
  apply stable_bind; [apply (stable_host_self metadata) | intros _].
  apply stable_bind; [apply (stable_host_self metadata) | intros selected].
  apply stable_bind; [apply (stable_host_self metadata) | intros l].
  case_bool_decide; apply (stable_host_self metadata).
Qed.

(** Past the frame-range check, [save] leaves the requested range in the
    metadata, whether the export that follows returns or raises. *)
Lemma save_checked_frames (path : pystr) (start end_ sampleBy : Z)
    (fileType : pyval) (exportUSD : bool) (o o' : Obj) (r : result unit) :
  PoseSave_keeps_frames handle ->
  save_checked handle path start end_ sampleBy fileType exportUSD o = (o', r) ->
  metadata (snd o') !! "startFrame" = Some (VInt start)
  /\ metadata (snd o') !! "endFrame" = Some (VInt end_).
Proof.
  intros Hkeep E. destruct o as [s self]. unfold save_checked in E.
  rewrite bind_run in E. cbn [getSelf] in E.
  rewrite bind_run, setMetadata_run, bind_run, setMetadata_run in E.
  rewrite bind_run in E. cbn [host logger] in E.
  rewrite bind_run in E. cbn [getSelf] in E.
  set (c2 := with_metadata _ _) in E.
  assert (Hc2 : metadata c2 !! "startFrame" = Some (VInt start)
                /\ metadata c2 !! "endFrame" = Some (VInt end_)).
  { subst c2. cbn [metadata with_metadata]. split.
    - apply lookup_insert_eq.
    - rewrite lookup_insert_ne by done. apply lookup_insert_eq. }
  rewrite bind_run in E. unfold host at 1 in E. rewrite call_run in E.
  cbn [world] in E.
  destruct (handle Cache _ _) as [w' [c3 | cls msg]] eqn:Eh; cbn [fst snd] in E.
  - apply Hkeep in Eh. rewrite bind_run in E. cbn [setSelf] in E.
    cbv zeta in E.
    match type of E with
    | ?m ?o = _ =>
        assert (Ht : metadata (snd (fst (m o))) = metadata (snd o))
          by exact (save_tail_metadata _ _ _ _ _ _ _ o)
    end.
    rewrite E in Ht. cbn [fst snd] in Ht. rewrite Ht.
    destruct Eh as [-> ->]. exact Hc2.
  - injection E as <- _. exact Hc2.
Qed.

(** C7. After a successful [Cache.save(path, time=(start, end), ...)]
    with [start < end], the metadata maps ["startFrame"] to [start] and
    ["endFrame"] to [end] (not to the [end + 1] handed to the export),
    and [startFrame()] and [endFrame()] return them; [Pose.save], whose
    source is absent, is taken to leave these two entries alone. *)
Theorem save_records_requested_range
    (path : pystr) (start end_ sampleBy : Z) (fileType : pyval)
    (exportUSD : bool) (s s' : St) (self self' : Cache)
    (Hpose : PoseSave_keeps_frames handle)
    (Hlt : start < end_)
    (Hsave : save handle path (Some (Some start, Some end_))
               sampleBy fileType exportUSD (s, self) = ((s', self'), Ok tt)) :
  metadata self' !! "startFrame" = Some (VInt start)
  /\ metadata self' !! "endFrame" = Some (VInt end_)
  /\ startFrame self' = VInt start
  /\ endFrame self' = VInt end_.
Proof.
  rewrite save_pair in Hsave. case_decide; [lia |].
  apply save_checked_frames in Hsave as [H1 H2]; [| exact Hpose].
  cbn [snd] in H1, H2. unfold startFrame, endFrame, dict_get.
  rewrite H1, H2. done.
Qed.

(** *** [importAbc] *)

Lemma PasteOption_ReplaceCompletely :
  getattr "PasteOption" PasteOption "ReplaceCompletely"
  = Err (AttributeError "PasteOption" "ReplaceCompletely").
Proof. vm_compute. reflexivity. Qed.

Lemma PasteOption_attributes (name : string) :
  is_Some (PasteOption !! name) <-> name = "Replace" \/ name = "Import".
Proof.
  unfold PasteOption. rewrite !lookup_insert_is_Some, lookup_empty.
  split.
  - intros [-> | [_ [-> | [_ H]]]]; [by right | by left |].
    by destruct H.
  - intros [-> | ->]; [right | left]; [| done].
    split; [done | by left].
Qed.

(** [Cache.fromPath] does not enter [Cache.load]. *)
Lemma fromPath_loads (p : pystr) : stable load_records (fromPath handle p).
Proof.
  unfold fromPath.
  apply stable_bind; [apply stable_call_loads | intros cache].
  apply stable_bind; [| intros r; apply stable_ret].
  apply stable_on.
  apply stable_bind; [| intros _].
  { unfold Cache_init. apply stable_try_except.
    - apply stable_bind; [apply stable_host, stable_call_loads | intros u1].
      apply stable_bind; [apply stable_host, stable_call_loads | intros u2].
      apply stable_bind; [apply stable_host, stable_call_loads | intros u3].
      apply stable_bind; [apply (stable_setMetadata load_records) | intros _].
      apply stable_bind; [apply (stable_setMetadata load_records) | intros _].
      apply (stable_setMetadata load_records).
    - intros e k Hk. destruct e; try discriminate Hk.
      case_bool_decide; [| discriminate Hk]. injection Hk as <-.
      by apply stable_host, stable_logger_loads. }
  apply stable_bind; [apply (stable_setPath load_records) | intros _].
  unfold read.
  apply stable_bind; [apply stable_getSelf | intros self].
  apply stable_bind; [by apply stable_host, stable_logger_loads | intros _].
  apply stable_bind; [apply stable_host, stable_call_loads | intros self'].
  apply stable_bind; [apply (stable_setSelf load_records) | intros _].
  by apply stable_host, stable_logger_loads.
Qed.

(** C8. With a non-empty list of paths and no dialog, [importAbc] always
    raises, and does so before [Cache.load] is entered for any path:
    when [option] is [None] or ["replace all"] the lookup of
    [PasteOption.ReplaceCompletely] raises [AttributeError] (the class
    binds [Replace] and [Import] only) before anything else happens; for
    any other [option], the first iteration raises [UnboundLocalError]
    on [startFrame] as soon as [Cache.fromPath] has returned the first
    cache (an exception of [Cache.fromPath] itself ends the call just as
    well). *)
Theorem importAbc_never_loads
    (p : pystr) (rest : list pystr) (spacing : Z)
    (objects option namespaces : pyval) (s : St) :
  let run := importAbc handle (p :: rest) spacing objects option namespaces
               false s in
  run = (if py_is_none option || py_eq_str option (codes "replace all")
         then (s, Err (AttributeError "PasteOption" "ReplaceCompletely"))
         else match fromPath handle p s with
              | (s1, Ok _) => (s1, Err (UnboundLocalError "startFrame"))
              | (s1, Err e) => (s1, Err e)
              end)
  /\ (exists e, snd run = Err e)
  /\ load_records (fst run) = load_records s
  /\ (forall name, is_Some (PasteOption !! name)
                   <-> name = "Replace" \/ name = "Import").
Proof.
  intros run.
  assert (E : run = (if py_is_none option || py_eq_str option (codes "replace all")
                     then (s, Err (AttributeError "PasteOption" "ReplaceCompletely"))
                     else match fromPath handle p s with
                          | (s1, Ok _) => (s1, Err (UnboundLocalError "startFrame"))
                          | (s1, Err e) => (s1, Err e)
                          end)).
  { subst run. unfold importAbc. rewrite bind_run.
    destruct (py_is_none option || py_eq_str option (codes "replace all")).
    - by rewrite PasteOption_ReplaceCompletely.
    - cbn [mret M_ret]. rewrite bind_run. cbn [mret M_ret importAbc_loop].
      rewrite bind_run. unfold importAbc_step. rewrite bind_run.
      by destruct (fromPath handle p s) as [s1 [cache | e]]. }
  split; [exact E |]. rewrite E. clear E run.
  pose proof (fromPath_loads p s) as Hl.
  split; [| split; [| apply PasteOption_attributes]].
  - destruct (_ || _); [by eexists |].
    destruct (fromPath handle p s) as [s1 [cache | e]]; by eexists.
  - destruct (_ || _); [done |].
    by destruct (fromPath handle p s) as [s1 [cache | e]].
Qed.

(** *** [CacheItem.saveValidator] *)

(** C9. When the base validator returns [fields], and the keyword
    arguments hold under ["byFrame"] nothing, [''] or an integer and
    under ["frameRange"] nothing or a pair of integers, [saveValidator]
    returns [fields] followed by the ["byFrame"] error exactly when
    [byFrame] is [''] or an integer below 1, then by the ["frameRange"]
    error exactly when the range, [(0, 1)] when absent, has
    [start >= end]; nothing else is added. *)
Theorem saveValidator_fields
    (kw : kwargs) (s : St) (w' : World) (fields : list field)
    (byFrame : byFrameArg) (frameRange : option (Z * Z))
    (Hbase : handle _ (BaseSaveValidator kw) (world s) = (w', Returns fields))
    (HbyFrame : kw !! "byFrame" = byFrame_entry byFrame)
    (HframeRange : kw !! "frameRange" = frameRange_entry frameRange) :
  saveValidator handle kw s
  = (mkSt w' (trace s ++ [ev (BaseSaveValidator kw)]) (logs s),
     Ok (fields
         ++ (if byFrame_rejected byFrame then [byFrame_error] else [])
         ++ (if decide (fst (default (0, 1) frameRange)
                        >= snd (default (0, 1) frameRange))
             then [frameRange_error] else [])))
  /\ (byFrame_rejected byFrame = true
      <-> byFrame = ByFrameEmpty \/ exists n, byFrame = ByFrameInt n /\ n < 1).
Proof.
  split.
  - unfold saveValidator. rewrite bind_run, call_run, Hbase. cbn [fst snd].
    unfold dict_get, dict_get_or. rewrite HbyFrame, HframeRange.
    assert (Hby : (if py_eq_str (default VNone (byFrame_entry byFrame)) []
                   then Ok true
                   else py_lt (default (VInt 1) (byFrame_entry byFrame)) (VInt 1))
                  = Ok (byFrame_rejected byFrame)).
    { destruct byFrame; reflexivity. }
    rewrite bind_run, Hby. cbn [lift].
    destruct frameRange as [[a b] |];
      cbv [frameRange_entry fmap option_fmap option_map default from_option
           id py_unpack2 lift mbind M_bind mret M_ret py_ge py_lt fst snd].
    + destruct (Z.ltb_spec a b); case_decide; try lia; cbn [negb];
        destruct (byFrame_rejected byFrame);
        by rewrite <- ?app_assoc, ?app_nil_r.
    + case_decide; [lia |]. cbn [negb Z.ltb Z.compare].
      destruct (byFrame_rejected byFrame); by rewrite ?app_nil_r.
  - destruct byFrame; cbn [byFrame_rejected].
    + split; [done |]. intros [? | (n & ? & _)]; done.
    + split; [by left | done].
    + rewrite Z.ltb_lt. split.
      * intros Hn. right. by exists n.
      * intros [? | (m & [= ->] & Hm)]; done.
Qed.

End Properties.

(** ** The statements on the sample host *)

Lemma findFirstLastKeyframes_clamps_witness :
  scene_handle Z (FindKeyframe [codes "ctl_L_tx"] (codes "first")) (world st0)
  = (scene0, Returns 10)
  /\ scene_handle Z (FindKeyframe [codes "ctl_L_tx"] (codes "last")) scene0
     = (scene0, Returns 50)
  /\ findFirstLastKeyframes scene_handle [codes "ctl_L_tx"] (Some (60, 70)) st0
     = (mkSt scene0
          [ev (FindKeyframe [codes "ctl_L_tx"] (codes "first"));
           ev (FindKeyframe [codes "ctl_L_tx"] (codes "last"))]
          [LogExn WARNING (OutOfBoundsError clampRange_msg (60, 70) (10, 50))],
        Ok (10, 50)).
Proof.
  split; [reflexivity |]. split; [reflexivity |].
  apply (findFirstLastKeyframes_clamps scene_handle [codes "ctl_L_tx"]
           (Some (60, 70)) st0 scene0 scene0 10 50); reflexivity.
Defined.


(** C4 fails as stated: a range with [start == end] is refused although
    its start is not greater than its end. *)
Lemma save_zero_duration_refused :
  snd (save scene_handle walk_dir (Some (Some 5, Some 5)) 1 VNone false
         (st0, cache0))
  = Err (AnimationTransferError save_msg_order)
  /\ ~ (5 > 5).
Proof. split; [vm_compute; reflexivity | lia]. Qed.

Lemma scene_PoseSave_keeps_frames : PoseSave_keeps_frames scene_handle.
Proof.
  intros c c' p w w' H. cbn [scene_handle] in H. injection H as _ <-.
  cbn [metadata with_metadata]. by rewrite !lookup_insert_ne.
Defined.

Lemma save_records_requested_range_witness :
  PoseSave_keeps_frames scene_handle
  /\ 1 < 20
  /\ save scene_handle walk_dir (Some (Some 1, Some 20)) 1 VNone true
       (st0, cache0) = (saved0, Ok tt)
  /\ metadata (snd saved0) !! "startFrame" = Some (VInt 1)
  /\ metadata (snd saved0) !! "endFrame" = Some (VInt 20)
  /\ startFrame (snd saved0) = VInt 1
  /\ endFrame (snd saved0) = VInt 20.
Proof.
  assert (Hs : save scene_handle walk_dir (Some (Some 1, Some 20)) 1 VNone true
                 (st0, cache0) = ((fst saved0, snd saved0), Ok tt))
    by (vm_compute; reflexivity).
  split; [exact scene_PoseSave_keeps_frames |]. split; [lia |].
  split; [by rewrite Hs; destruct saved0 |].
  apply (save_records_requested_range scene_handle walk_dir 1 20 1 VNone true
           st0 (fst saved0) cache0 (snd saved0)
           scene_PoseSave_keeps_frames); [lia | exact Hs].
Defined.

Lemma saveValidator_fields_witness :
  scene_handle _ (BaseSaveValidator kwargs0) (world st0) = (scene0, Returns [])
  /\ kwargs0 !! "byFrame" = byFrame_entry (ByFrameInt 0)
  /\ kwargs0 !! "frameRange" = frameRange_entry (Some (5, 5))
  /\ saveValidator scene_handle kwargs0 st0
     = (mkSt scene0 [ev (BaseSaveValidator kwargs0)] [],
        Ok [byFrame_error; frameRange_error]).
Proof.
  assert (Hb : scene_handle _ (BaseSaveValidator kwargs0) (world st0)
               = (scene0, Returns []))
    by (vm_compute; reflexivity).
  assert (H1 : kwargs0 !! "byFrame" = byFrame_entry (ByFrameInt 0))
    by (vm_compute; reflexivity).
  assert (H2 : kwargs0 !! "frameRange" = frameRange_entry (Some (5, 5)))
    by (vm_compute; reflexivity).
  split; [exact Hb |]. split; [exact H1 |]. split; [exact H2 |].
  destruct (saveValidator_fields scene_handle kwargs0 st0 scene0 []
              (ByFrameInt 0) (Some (5, 5)) Hb H1 H2) as [E _].
  exact E.
Defined.

(** * Further properties *)

(** ** Clamping and moving ranges *)

(** X1. A range [clampRange] returns lies within the source and within
    the destination, and is ordered when both of them are. *)
Theorem clampRange_within (src dst r : Z * Z)
    (Hr : clampRange src dst = Ok r) :
  fst src <= fst r /\ fst dst <= fst r
  /\ snd r <= snd src /\ snd r <= snd dst
  /\ (fst src <= snd src -> fst dst <= snd dst -> fst r <= snd r).
Proof.
  destruct src as [ss se], dst as [ds de]. rewrite clampRange_eq in Hr.
  case_decide as Hd; [discriminate Hr |]. injection Hr as <-.
  cbn [fst snd]. lia.
Qed.

Lemma clampRange_within_witness :
  clampRange (15, 35) (20, 30) = Ok (20, 30)
  /\ 15 <= 20 /\ 20 <= 20 /\ 30 <= 35 /\ 30 <= 30
  /\ (15 <= 35 -> 20 <= 30 -> 20 <= 30).
Proof.
  split; [reflexivity |].
  apply (clampRange_within (15, 35) (20, 30) (20, 30)). reflexivity.
Defined.

(** X2. Clamping is idempotent: against an ordered destination, a range
    that has been clamped is returned unchanged when clamped again. *)
Theorem clampRange_idempotent (src dst r : Z * Z)
    (Hdst : fst dst <= snd dst)
    (Hr : clampRange src dst = Ok r) :
  clampRange r dst = Ok r.
Proof.
  destruct src as [ss se], dst as [ds de]. cbn [fst snd] in Hdst.
  rewrite clampRange_eq in Hr.
  case_decide as Hd; [discriminate Hr |]. injection Hr as <-.
  rewrite clampRange_eq. case_decide; [lia |]. do 2 f_equal; lia.
Qed.

Lemma clampRange_idempotent_witness :
  20 <= 30
  /\ clampRange (25, 45) (20, 30) = Ok (25, 30)
  /\ clampRange (25, 30) (20, 30) = Ok (25, 30).
Proof.
  split; [lia |]. split; [reflexivity |].
  apply (clampRange_idempotent (25, 45) (20, 30) (25, 30)); [cbn; lia |].
  reflexivity.
Defined.

(** X3. Clamping does not depend on which range is the source: with the
    two arguments exchanged, [clampRange] raises in the same cases and
    returns the same range otherwise. *)
Theorem clampRange_symmetric (src dst : Z * Z) :
  match clampRange src dst, clampRange dst src with
  | Ok a, Ok b => a = b
  | Err _, Err _ => True
  | _, _ => False
  end.
Proof.
  destruct src as [ss se], dst as [ds de]. rewrite !clampRange_eq.
  repeat case_decide; try lia; try done. f_equal; lia.
Qed.

(** X4. [moveTime] never returns a range of zero length, whatever the
    range and whether the start is given or [None]. *)
Theorem moveTime_never_empty (time : Z * Z) (start : option Z) :
  fst (moveTime time start) <> snd (moveTime time start).
Proof.
  destruct time as [s e]. unfold moveTime.
  destruct start as [t |]; cbn [fst snd];
    match goal with
    | |- context [?a =? ?b] => destruct (Z.eqb_spec a b)
    end; cbn [fst snd]; lia.
Qed.

(** X5. Moving a range twice is moving it to the last start, whatever
    the first start was; so moving a range of non-zero length away and
    back to its start restores it. *)
Theorem moveTime_twice (s e : Z) (a : option Z) (b : Z) :
  moveTime (moveTime (s, e) a) (Some b) = moveTime (s, e) (Some b)
  /\ (s <> e -> moveTime (moveTime (s, e) a) (Some s) = (s, e)).
Proof.
  assert (Ha : exists t, moveTime (s, e) a
                         = if decide (s = e) then (t, t + 1)
                           else (t, t + (e - s))).
  { destruct a as [t |].
    - exists t. apply moveTime_Some.
    - exists s. unfold moveTime. case_decide as Hd.
      + subst e. replace (s + (s - s)) with s by lia. by rewrite Z.eqb_refl.
      + destruct (Z.eqb_spec s (s + (e - s))); [lia | reflexivity]. }
  destruct Ha as [t Ht]. rewrite Ht. split.
  - rewrite (moveTime_Some s e b).
    case_decide; rewrite moveTime_Some; case_decide; try lia; f_equal; lia.
  - intros Hne. case_decide; [done |].
    rewrite moveTime_Some. case_decide; [lia |]. f_equal. lia.
Qed.

(** ** More on the functions that talk to the host *)

Section MoreProperties.

Context {World : Type}.
Context (handle : forall T : Type, hostE T -> World -> World * answer T).

Abbreviation St := (@St World).
Abbreviation Obj := (@Obj World).

(** X6. Once the host has reported the keyframes [first] and [last],
    [findFirstLastKeyframes] does not raise, whatever [time] is, and the
    range it returns lies within [(first, last)]; it is ordered when
    [time] and [(first, last)] are. *)
Theorem findFirstLastKeyframes_inside
    (curves : list pystr) (time : option (Z * Z)) (s : St)
    (w1 w2 : World) (first last : Z)
    (Hfirst : handle Z (FindKeyframe curves (codes "first")) (world s)
              = (w1, Returns first))
    (Hlast : handle Z (FindKeyframe curves (codes "last")) w1
             = (w2, Returns last)) :
  exists (s' : St) (a b : Z),
    findFirstLastKeyframes handle curves time s = (s', Ok (a, b))
    /\ world s' = w2
    /\ first <= a /\ b <= last
    /\ (match time with Some (ts, te) => ts <= te | None => True end ->
        first <= last -> a <= b).
Proof.
  unfold findFirstLastKeyframes.
  rewrite bind_run, call_run, Hfirst. cbn [fst snd world trace logs].
  rewrite bind_run, call_run. cbn [fst snd world trace logs]. rewrite Hlast.
  cbn [fst snd].
  destruct time as [[ts te] |].
  - unfold try_except, lift. rewrite clampRange_eq.
    case_decide as Hd; cbv [mbind M_bind logger mret M_ret];
      do 3 eexists; (split; [reflexivity |]); cbn [world]; repeat split; lia.
  - do 3 eexists. split; [reflexivity |]. cbn [world]. repeat split; lia.
Qed.

(** *** [Cache.__init__] *)

(** X7. [Cache.__init__] sets the three unit annotations together or not
    at all: the object is left with all of them stored, or exactly as it
    was; and a [NameError] of the host is swallowed, never raised. When
    it returns, either the three annotations are stored and nothing is
    logged, or nothing is stored and the [NameError] is logged as one
    ERROR record ([logger.exception]); any other exception of the host
    is raised with nothing stored and nothing logged. In particular a
    [NameError] at the first query gives a normal return with exactly
    that record added to the log. *)
Theorem Cache_init_all_or_nothing (s : St) (self : Cache) :
  let run := Cache_init handle (s, self) in
  (snd (fst run) = self
   \/ (snd run = Ok tt
       /\ exists timeUnit linearUnit angularUnit,
            snd (fst run)
            = with_metadata
                (<["angularUnit" := angularUnit]>
                   (<["linearUnit" := linearUnit]>
                      (<["timeUnit" := timeUnit]> (metadata self)))) self))
  /\ (forall msg, snd run <> Err (HostError "NameError" msg))
  /\ (snd run = Ok tt ->
      (logs (fst (fst run)) = logs s
       /\ exists timeUnit linearUnit angularUnit,
            snd (fst run)
            = with_metadata
                (<["angularUnit" := angularUnit]>
                   (<["linearUnit" := linearUnit]>
                      (<["timeUnit" := timeUnit]> (metadata self)))) self)
      \/ (exists msg,
            snd (fst run) = self
            /\ logs (fst (fst run))
               = logs s ++ [LogExn ERROR (HostError "NameError" msg)]))
  /\ (forall e, snd run = Err e ->
      snd (fst run) = self
      /\ logs (fst (fst run)) = logs s
      /\ exists cls msg, e = HostError cls msg /\ cls <> "NameError")
  /\ (forall (w' : World) (msg : pystr),
        handle pyval (CurrentUnit "time") (world s)
        = (w', Raises "NameError" msg) ->
        run = ((mkSt w' (trace s ++ [ev (CurrentUnit "time")])
                  (logs s ++ [LogExn ERROR (HostError "NameError" msg)]),
                self), Ok tt)).
Proof.
  intros run.
  assert (Hfirst : forall (w' : World) (msg : pystr),
             handle pyval (CurrentUnit "time") (world s)
             = (w', Raises "NameError" msg) ->
             run = ((mkSt w' (trace s ++ [ev (CurrentUnit "time")])
                       (logs s ++ [LogExn ERROR (HostError "NameError" msg)]),
                     self), Ok tt)).
  { intros w' msg Hw. subst run. unfold Cache_init, try_except.
    rewrite bind_run. unfold host at 1. rewrite call_run, Hw. reflexivity. }
  cut ((snd (fst run) = self
        \/ (snd run = Ok tt
            /\ exists timeUnit linearUnit angularUnit,
                 snd (fst run)
                 = with_metadata
                     (<["angularUnit" := angularUnit]>
                        (<["linearUnit" := linearUnit]>
                           (<["timeUnit" := timeUnit]> (metadata self)))) self))
       /\ (forall msg, snd run <> Err (HostError "NameError" msg))
       /\ (snd run = Ok tt ->
           (logs (fst (fst run)) = logs s
            /\ exists timeUnit linearUnit angularUnit,
                 snd (fst run)
                 = with_metadata
                     (<["angularUnit" := angularUnit]>
                        (<["linearUnit" := linearUnit]>
                           (<["timeUnit" := timeUnit]> (metadata self)))) self)
           \/ (exists msg,
                 snd (fst run) = self
                 /\ logs (fst (fst run))
                    = logs s ++ [LogExn ERROR (HostError "NameError" msg)]))
       /\ (forall e, snd run = Err e ->
           snd (fst run) = self
           /\ logs (fst (fst run)) = logs s
           /\ exists cls msg, e = HostError cls msg /\ cls <> "NameError")).
  { intros (H1 & H2 & H3 & H4).
    exact (conj H1 (conj H2 (conj H3 (conj H4 Hfirst)))). }
  clear Hfirst. subst run.
  destruct (Cache_init handle (s, self)) as [[s' self'] r] eqn:E.
  cbn [fst snd]. unfold Cache_init, try_except in E.
  assert (Hswallow : forall (st : St) (cls : string) (msg : pystr),
             logs st = logs s ->
             match (if bool_decide (cls = "NameError")
                    then Some (host (logger (LogExn ERROR (HostError cls msg))))
                    else None) with
             | Some k => k (st, self)
             | None => ((st, self), Err (HostError cls msg))
             end = ((s', self'), r) ->
             (self' = self
              \/ (r = Ok tt
                  /\ exists timeUnit linearUnit angularUnit,
                       self'
                       = with_metadata
                           (<["angularUnit" := angularUnit]>
                              (<["linearUnit" := linearUnit]>
                                 (<["timeUnit" := timeUnit]> (metadata self))))
                           self))
             /\ (forall m, r <> Err (HostError "NameError" m))
             /\ (r = Ok tt ->
                 (logs s' = logs s
                  /\ exists timeUnit linearUnit angularUnit,
                       self'
                       = with_metadata
                           (<["angularUnit" := angularUnit]>
                              (<["linearUnit" := linearUnit]>
                                 (<["timeUnit" := timeUnit]> (metadata self))))
                           self)
                 \/ (exists m,
                       self' = self
                       /\ logs s'
                          = logs s ++ [LogExn ERROR (HostError "NameError" m)]))
             /\ (forall e, r = Err e ->
                 self' = self /\ logs s' = logs s
                 /\ exists c m, e = HostError c m /\ c <> "NameError")).
  { intros st cls msg Hst. case_bool_decide as Hc.
    - subst cls. cbn [host logger]. intros [= <- <- <-]. cbn [logs].
      rewrite Hst. split; [by left |]. split; [done |].
      split; [| done]. intros _. right. by exists msg.
    - intros [= <- <- <-]. split; [by left |].
      split; [intros m [= ? ?]; done |]. split; [done |].
      intros e [= <-]. split; [done |]. split; [done |]. by exists cls, msg. }
  rewrite bind_run in E. unfold host at 1 in E. rewrite call_run in E.
  destruct (handle pyval (CurrentUnit "time") _) as [w1 [tu | cls1 msg1]];
    cbn [fst snd] in E; [| by eapply Hswallow; [| exact E]].
  rewrite bind_run in E. unfold host at 1 in E. rewrite call_run in E.
  cbn [world] in E.
  destruct (handle pyval (CurrentUnit "linear") _) as [w2 [lu | cls2 msg2]];
    cbn [fst snd] in E; [| by eapply Hswallow; [| exact E]].
  rewrite bind_run in E. unfold host at 1 in E. rewrite call_run in E.
  cbn [world] in E.
  destruct (handle pyval (CurrentUnit "angle") _) as [w3 [au | cls3 msg3]];
    cbn [fst snd] in E; [| by eapply Hswallow; [| exact E]].
  injection E as <- <- <-. cbn [logs].
  split; [right; split; [reflexivity |]; by exists tu, lu, au |].
  split; [done |]. split; [| done].
  intros _. left. split; [reflexivity |]. by exists tu, lu, au.
Qed.

(** *** [Cache.open] and [Cache.paths] *)

Lemma bind_Ok {S A B : Type} (m : M S A) (k : A -> M S B) (s s' : S) (b : B) :
  (m ≫= k) s = (s', Ok b) ->
  exists s1 a, m s = (s1, Ok a) /\ k a s1 = (s', Ok b).
Proof.
  rewrite bind_run. destruct (m s) as [s1 [a | e]]; [eauto | discriminate].
Qed.

Lemma os_path_join_elem (a b : pystr) (c : N) :
  startswith b (codes "/") = false -> c ∈ a -> c ∈ os_path_join a b.
Proof.
  intros Hb Hc. unfold os_path_join. rewrite Hb.
  destruct (_ || _); rewrite !elem_of_app; auto.
Qed.

Lemma close_self : stable (fun o : Obj => snd o) (close handle).
Proof.
  unfold close.
  apply stable_bind; [apply (stable_host_self id) | intros nodes].
  apply stable_bind.
  { case_bool_decide; [apply stable_ret | apply (stable_host_self id)]. }
  intros _.
  apply stable_bind; [apply (stable_host_self id) | intros nss].
  case_bool_decide; [| apply stable_ret].
  apply stable_bind; [apply (stable_host_self id) | intros _].
  apply (stable_host_self id).
Qed.

Lemma mayaPath_self : stable (fun o : Obj => snd o) (mayaPath handle).
Proof.
  unfold mayaPath.
  apply stable_bind; [apply stable_getSelf | intros self].
  apply stable_bind; [apply (stable_host_self id) | intros found].
  destruct (negb found); apply stable_ret.
Qed.

Lemma host_only_ret {S A : Type} (a : A) : host_only (mret a : M S A).
Proof. intros s s' e H. discriminate H. Qed.

Lemma host_only_bind {S A B : Type} (m : M S A) (k : A -> M S B) :
  host_only m -> (forall a, host_only (k a)) -> host_only (m ≫= k).
Proof.
  intros Hm Hk s s' e. rewrite bind_run.
  destruct (m s) as [s1 [a | e1]] eqn:Em.
  - apply Hk.
  - intros [= <- <-]. exact (Hm _ _ _ Em).
Qed.

Lemma host_only_call {T : Type} (e : hostE T) : host_only (call handle e).
Proof.
  intros s s' x. rewrite call_run.
  destruct (snd (handle T e (world s))); intros [= _ <-]; eauto.
Qed.

Lemma host_only_host {A : Type} (m : M St A) :
  host_only m -> host_only (host m : M Obj A).
Proof.
  intros Hm [s c] s' x. unfold host.
  destruct (m s) as [s1 r] eqn:Em. intros [= _ ->]. exact (Hm _ _ _ Em).
Qed.

Lemma host_only_getSelf : host_only (getSelf : M Obj Cache).
Proof. intros [s c] s' x H. discriminate H. Qed.

Lemma close_host_only : host_only (close handle).
Proof.
  unfold close.
  apply host_only_bind; [apply host_only_host, host_only_call | intros nodes].
  apply host_only_bind.
  { case_bool_decide; [apply host_only_ret |].
    apply host_only_host, host_only_call. }
  intros _.
  apply host_only_bind; [apply host_only_host, host_only_call | intros nss].
  case_bool_decide; [| apply host_only_ret].
  apply host_only_bind; [apply host_only_host, host_only_call | intros _].
  apply host_only_host, host_only_call.
Qed.

Lemma mayaPath_host_only : host_only (mayaPath handle).
Proof.
  unfold mayaPath.
  apply host_only_bind; [apply host_only_getSelf | intros self].
  apply host_only_bind; [apply host_only_host, host_only_call | intros found].
  destruct (negb found); apply host_only_ret.
Qed.

(** The path [mayaPath] returns holds every character of [self.path()]. *)
Lemma mayaPath_chars (s : St) (self : Cache) (o' : Obj) (p : pystr) (c : N) :
  mayaPath handle (s, self) = (o', Ok p) -> c ∈ path self -> c ∈ p.
Proof.
  unfold mayaPath. rewrite bind_run. cbn [getSelf]. rewrite bind_run.
  destruct (host _ _) as [o1 [found | e]]; [| discriminate].
  destruct (negb found); intros [= _ <-] Hc;
    apply os_path_join_elem; (done || by vm_compute).
Qed.

(** X8. A bundle whose directory path holds a character with a code
    point of 128 or more cannot be opened, whatever the host answers:
    [Cache.open] raises (the [IOError] of the source, or what the host
    raised while cleaning up or probing for the scene file), no scene
    file is imported, and the object is left as it was. *)
Theorem open_never_imports_non_ascii (self : Cache) (s : St)
    (Hp : exists c, c ∈ path self /\ (128 <= c)%N) :
  let run := open handle (s, self) in
  (snd run = Err (IOError open_msg)
   \/ exists cls msg, snd run = Err (HostError cls msg))
  /\ imports (fst (fst run)) = imports s
  /\ snd (fst run) = self.
Proof.
  intros run. subst run.
  destruct (open handle (s, self)) as [[s' self'] r] eqn:E. cbn [fst snd].
  unfold open in E. rewrite bind_run in E.
  pose proof (close_imports handle (s, self)) as Hci.
  pose proof (close_self (s, self)) as Hcs.
  destruct (close handle (s, self)) as [[s1 c1] [[] | e]] eqn:Ec;
    cbn [fst snd] in Hci, Hcs; subst c1.
  - rewrite bind_run in E.
    pose proof (mayaPath_imports handle (s1, self)) as Hmi.
    pose proof (mayaPath_self (s1, self)) as Hms.
    destruct (mayaPath handle (s1, self)) as [[s2 c2] [p | e]] eqn:Em;
      cbn [fst snd] in Hmi, Hms; subst c2.
    + assert (Hna : isAscii p = false).
      { apply isAscii_false. destruct Hp as (c & Hc & Hge).
        exists c. split; [| exact Hge]. by eapply mayaPath_chars. }
      rewrite Hna in E. injection E as <- <- <-.
      split; [by left |]. split; [congruence | done].
    + injection E as <- <- <-.
      destruct (mayaPath_host_only _ _ _ Em) as (cls & msg & ->).
      split; [right; eauto |]. split; [congruence | done].
  - injection E as <- <- <-.
    destruct (close_host_only _ _ _ Ec) as (cls & msg & ->).
    split; [right; eauto |]. done.
Qed.

Lemma host_PathExists_probe (q : pystr) (s : St) (c : Cache) :
  PathExists_probes handle ->
  host (call handle (PathExists q)) (s, c)
  = ((mkSt (world s) (trace s ++ [ev (PathExists q)]) (logs s), c),
     Ok (exists_on handle (world s) q)).
Proof.
  intros Hprobe. unfold host. rewrite call_run, (Hprobe q (world s)).
  reflexivity.
Qed.

Lemma mayaPath_probe (s : St) (self : Cache) :
  PathExists_probes handle ->
  let mb := os_path_join (path self) (codes "animation.mb") in
  let ma := os_path_join (path self) (codes "animation.ma") in
  mayaPath handle (s, self)
  = ((mkSt (world s) (trace s ++ [ev (PathExists mb)]) (logs s), self),
     Ok (if exists_on handle (world s) mb then mb else ma)).
Proof.
  intros Hprobe mb ma. unfold mayaPath. rewrite bind_run. cbn [getSelf].
  rewrite bind_run, host_PathExists_probe by done.
  fold mb. by destruct (exists_on handle (world s) mb).
Qed.

(** X9. When [os.path.exists] is a probe (it returns and changes
    nothing), [Cache.paths] lists only files that exist: the scene file
    [animation.mb], or else [animation.ma], when it is there, then
    [pose.json] when it is there. In particular the [animation.ma] path
    that [mayaPath] falls back to is not listed unless it exists. The
    world and the object are left as they were. *)
Theorem paths_lists_existing (s : St) (self : Cache)
    (Hprobe : PathExists_probes handle) :
  let there := exists_on handle (world s) in
  let mb := os_path_join (path self) (codes "animation.mb") in
  let ma := os_path_join (path self) (codes "animation.ma") in
  let pj := poseJsonPath self in
  let listed := (if there mb then [mb] else if there ma then [ma] else [])
                ++ (if there pj then [pj] else []) in
  exists s' : St,
    paths handle (s, self) = ((s', self), Ok listed)
    /\ world s' = world s
    /\ Forall (fun q => there q = true) listed.
Proof.
  intros there mb ma pj listed. unfold paths.
  rewrite bind_run. cbn [getSelf].
  rewrite bind_run, mayaPath_probe by done. cbn zeta. fold mb ma.
  rewrite bind_run, host_PathExists_probe by done. cbn [world]. fold there.
  rewrite bind_run.
  assert (Hpj : forall (st : St) (result : list pystr),
             world st = world s ->
             exists s' : St,
               (host (call handle (PathExists pj))
                  ≫= (fun found : bool =>
                        mret (if found then result ++ [pj] else result)))
                 (st, self)
               = ((s', self), Ok (result ++ (if there pj then [pj] else [])))
               /\ world s' = world s).
  { intros st result Hst. rewrite bind_run, host_PathExists_probe by done.
    rewrite Hst. fold there. eexists. split.
    - cbn [mret M_ret]. destruct (there pj); by rewrite ?app_nil_r.
    - reflexivity. }
  subst listed. fold pj. change (exists_on handle (world s)) with there.
  destruct (there mb) eqn:Hmb.
  - rewrite Hmb. rewrite bind_run, mayaPath_probe by done.
    cbn zeta. cbn [world]. fold mb ma there. rewrite Hmb. cbn [mret M_ret].
    match goal with
    | |- context [(_ ≫= _) (?st, self)] =>
        destruct (Hpj st [mb] eq_refl) as (s' & E & Hw)
    end.
    exists s'. split; [exact E |]. split; [exact Hw |].
    apply Forall_app. split; [by constructor |].
    destruct (there pj) eqn:Hpjt; by repeat constructor.
  - destruct (there ma) eqn:Hma.
    + rewrite bind_run, mayaPath_probe by done.
      cbn zeta. cbn [world]. fold mb ma there. rewrite Hmb. cbn [mret M_ret].
      match goal with
      | |- context [(_ ≫= _) (?st, self)] =>
          destruct (Hpj st [ma] eq_refl) as (s' & E & Hw)
      end.
      exists s'. split; [exact E |]. split; [exact Hw |].
      apply Forall_app. split; [by constructor |].
      destruct (there pj) eqn:Hpjt; by repeat constructor.
    + cbn [mret M_ret].
      match goal with
      | |- context [(_ ≫= _) (?st, self)] =>
          destruct (Hpj st [] eq_refl) as (s' & E & Hw)
      end.
      exists s'. split; [exact E |]. split; [exact Hw |].
      destruct (there pj) eqn:Hpjt; by repeat constructor.
Qed.

(** *** More on [Cache.save] and [Cache.load] *)

(** X10. Without both frames [Cache.save] refuses to save: a [time]
    whose start or end is [None] raises [AnimationTransferError] and
    leaves the host and the object untouched; when [time] is not given
    and the range the host reports for the objects lacks a frame, the
    same error is raised right after that query. *)
Theorem save_needs_both_frames
    (path : pystr) (start end_ : option Z) (sampleBy : Z) (fileType : pyval)
    (exportUSD : bool) (s : St) (self : Cache)
    (Hnone : start = None \/ end_ = None) :
  save handle path (Some (start, end_)) sampleBy fileType exportUSD (s, self)
  = ((s, self), Err (AnimationTransferError save_msg_missing))
  /\ forall w' : World,
       handle _ (SelectedObjectsFrameRange (objects self)) (world s)
       = (w', Returns (start, end_)) ->
       save handle path None sampleBy fileType exportUSD (s, self)
       = ((mkSt w' (trace s ++ [ev (SelectedObjectsFrameRange (objects self))])
             (logs s), self),
          Err (AnimationTransferError save_msg_missing)).
Proof.
  split.
  - unfold save. rewrite bind_run. cbn [getSelf]. rewrite bind_run.
    cbn [mret M_ret]. destruct Hnone as [-> | ->]; [done |].
    by destruct start.
  - intros w' Hw. unfold save. rewrite bind_run. cbn [getSelf].
    rewrite bind_run. unfold host. rewrite call_run, Hw. cbn [fst snd].
    destruct Hnone as [-> | ->]; [done |]. by destruct start.
Qed.

Lemma stable_call_exports {T : Type} (e : hostE T) :
  is_AbcExport (ev e) = false -> stable exports (call handle e).
Proof.
  intros He s. rewrite call_run. unfold exports. cbn [fst trace].
  rewrite List.filter_app. cbn [List.filter]. rewrite He. apply app_nil_r.
Qed.

Lemma stable_logger_exports (r : logrec) : stable exports (logger r : M St unit).
Proof. intros s. reflexivity. Qed.

Lemma stable_crowd_top_nodes_exports (selected : list pystr) :
  stable exports (crowd_top_nodes handle selected).
Proof.
  induction selected as [| x xs IH]; cbn [crowd_top_nodes].
  - apply stable_ret.
  - apply stable_bind; [by apply stable_call_exports | intros topnode].
    apply stable_bind; [by apply stable_call_exports | intros crowd].
    apply stable_bind; [exact IH | intros more]. apply stable_ret.
Qed.

Lemma if_same {A : Type} (b : bool) (x : A) : (if b then x else x) = x.
Proof. by destruct b. Qed.

(** X11. A successful [Cache.save] on [(start, end)] hands the host
    exactly one Alembic export job: it covers the frames [start] to
    [end + 1], has one [-root] per object of the cache, and writes to
    [cache.abc] under [path] whatever [fileType] is; afterwards the
    object's path is [path]. *)
Theorem save_exports_once
    (dest : pystr) (start end_ sampleBy : Z) (fileType : pyval)
    (exportUSD : bool) (s s' : St) (self self' : Cache)
    (Hsave : save handle dest (Some (Some start, Some end_))
               sampleBy fileType exportUSD (s, self) = ((s', self'), Ok tt)) :
  exports s'
  = exports s
    ++ [ev (AbcExport
              (abc_command start (end_ + 1)
                 (str_join (codes " ")
                    ((fun object => codes "-root " ++ object) <$> objects self))
                 (os_path_join dest (codes "cache.abc"))))]
  /\ path self' = dest.
Proof.
  rewrite save_pair in Hsave. case_decide; [discriminate Hsave |].
  unfold save_checked in Hsave. rewrite if_same in Hsave.
  rewrite bind_run in Hsave. cbn [getSelf] in Hsave.
  rewrite bind_run, setMetadata_run, bind_run, setMetadata_run in Hsave.
  rewrite bind_run in Hsave. cbn [host logger] in Hsave.
  rewrite bind_run in Hsave. cbn [getSelf] in Hsave.
  set (c2 := with_metadata _ _) in Hsave.
  set (st := mkSt _ _ _) in Hsave.
  assert (Hst : exports st = exports s) by reflexivity.
  apply bind_Ok in Hsave as ([s1 c3] & c4 & H1 & Hsave).
  pose proof (stable_host exports _
                (stable_call_exports
                   (PoseSave c2 (os_path_join dest (codes "pose.json"))) eq_refl)
                (st, c2)) as E1.
  rewrite H1 in E1. cbn [fst] in E1.
  rewrite bind_run in Hsave. cbn [setSelf] in Hsave.
  apply bind_Ok in Hsave as ([s2 c5] & [] & H2 & Hsave).
  assert (E2 : exports s2 = exports s1 /\ c5 = c4).
  { pose proof (stable_host exports _
                  (stable_for_each exports (objects self)
                     (fun object => call handle (LsLong object))
                     (fun x => stable_call_exports (LsLong x) eq_refl))
                  (s1, c4)) as Ha.
    pose proof (stable_host_self id
                  (for_each (objects self)
                     (fun object => call handle (LsLong object))) (s1, c4)) as Hb.
    rewrite H2 in Ha, Hb. by split. }
  destruct E2 as [E2 ->].
  apply bind_Ok in Hsave as ([s3 c6] & [] & H3 & Hsave).
  assert (E3 : exports s3
               = exports s2
                 ++ [ev (AbcExport
                           (abc_command start (end_ + 1)
                              (str_join (codes " ")
                                 ((fun object => codes "-root " ++ object)
                                    <$> objects self))
                              (os_path_join dest (codes "cache.abc"))))]
               /\ c6 = c4).
  { unfold host in H3. rewrite call_run in H3.
    injection H3 as <- <- _. split; [| done].
    unfold exports. cbn [trace]. by rewrite List.filter_app. }
  destruct E3 as [E3 ->].
  apply bind_Ok in Hsave as ([s4 c7] & [] & H4 & Hsave).
  assert (E4 : exports s4 = exports s3).
  { destruct exportUSD.
    - revert H4.
      match goal with
      | |- ?m (s3, c4) = _ -> _ =>
          assert (Hm : stable (fun o : Obj => exports (fst o)) m)
      end.
      { apply stable_bind;
          [by apply stable_host, stable_call_exports | intros _].
        apply stable_bind;
          [by apply stable_host, stable_call_exports | intros selected].
        apply stable_bind;
          [apply stable_host, stable_crowd_top_nodes_exports | intros l].
        case_bool_decide.
        - apply stable_host, stable_logger_exports.
        - by apply stable_host, stable_call_exports. }
      intros H4. specialize (Hm (s3, c4)). by rewrite H4 in Hm.
    - by injection H4 as <- _. }
  change (setPath dest (s4, c7))
    with ((s4, with_path dest c7), @Ok unit tt) in Hsave.
  injection Hsave as <- <-. split; [congruence | reflexivity].
Qed.

(** X12. [Cache.load] changes neither the object nor the scene: all it
    asks of the host is the validation of the namespaces, whether it
    then returns or raises. *)
Theorem load_is_inert (objs nss opt : pyval) (s : St) (self : Cache) :
  let run := load handle objs nss opt (s, self) in
  snd (fst run) = self
  /\ trace (fst (fst run)) = trace s ++ [ev (PoseValidate self nss)]
  /\ world (fst (fst run)) = fst (handle unit (PoseValidate self nss) (world s)).
Proof.
  intros run. subst run.
  destruct (load handle objs nss opt (s, self)) as [[s' self'] r] eqn:E.
  cbn [fst snd]. unfold load in E.
  rewrite bind_run in E. cbn [getSelf] in E.
  rewrite bind_run in E. cbn [host logger] in E.
  rewrite bind_run in E. unfold host at 1 in E. rewrite call_run in E.
  cbn [world trace logs] in E.
  destruct (handle unit (PoseValidate self nss) (world s)) as [w [[] | cls msg]];
    cbn [fst snd] in E |- *.
  - rewrite bind_run in E. unfold lift at 1 in E.
    destruct (py_len (py_or objs (VSeq []))) as [n | e].
    + rewrite bind_run in E. cbn [host logger] in E.
      injection E as <- <- <-. done.
    + injection E as <- <- <-. done.
  - injection E as <- <- <-. done.
Qed.

(** *** More on [importAbc] *)

Lemma first_unexpected_startFrame (a b c d : pyval) :
  first_unexpected load_params
    [("option", a); ("objects", b); ("startFrame", c); ("namespaces", d)]
  = Some "startFrame".
Proof. vm_compute. reflexivity. Qed.

(** X13. One turn of the loop of [importAbc] cannot complete. Once
    [Cache.fromPath] has returned the cache, the turn raises
    [UnboundLocalError] while [startFrame] is unbound; and were it bound,
    the call of [load] would raise [TypeError], because [startFrame] is
    passed as a keyword that [Cache.load] does not take. In both cases
    [load] is not entered. *)
Theorem importAbc_step_raises
    (spacing : Z) (objs nss : pyval) (p : pystr) (l : locals) (s : St) :
  importAbc_step handle spacing objs nss p l s
  = match fromPath handle p s with
    | (s1, Ok _) =>
        (s1, Err (match l_startFrame l with
                  | None => UnboundLocalError "startFrame"
                  | Some _ => TypeError (unexpected_keyword "startFrame")
                  end))
    | (s1, Err e) => (s1, Err e)
    end.
Proof.
  unfold importAbc_step. rewrite bind_run.
  destruct (fromPath handle p s) as [s1 [cache | e]]; [| reflexivity].
  destruct (l_startFrame l) as [v |]; [| reflexivity].
  rewrite bind_run. cbn [read_local mret M_ret]. rewrite bind_run.
  unfold on, load_kw. by rewrite first_unexpected_startFrame.
Qed.

(** X14. With [option] left at [None], or given as ["replace all"],
    [importAbc] raises [AttributeError] at once: for every list of paths,
    the empty one included, and before the dialog would be shown; the
    host is not touched. *)
Theorem importAbc_default_option_raises
    (ps : list pystr) (spacing : Z) (objs nss : pyval) (showDialog : bool)
    (s : St) :
  importAbc handle ps spacing objs VNone nss showDialog s
  = (s, Err (AttributeError "PasteOption" "ReplaceCompletely"))
  /\ importAbc handle ps spacing objs (VStr (codes "replace all")) nss
       showDialog s
     = (s, Err (AttributeError "PasteOption" "ReplaceCompletely")).
Proof.
  split; unfold importAbc; rewrite bind_run.
  - cbn [py_is_none orb]. by rewrite PasteOption_ReplaceCompletely.
  - replace (py_is_none (VStr (codes "replace all"))
             || py_eq_str (VStr (codes "replace all")) (codes "replace all"))
      with true by (by vm_compute).
    by rewrite PasteOption_ReplaceCompletely.
Qed.

Lemma importAbc_loop_raises
    (spacing : Z) (objs nss : pyval) (p : pystr) (rest : list pystr)
    (l : locals) (s : St) :
  l_startFrame l = None ->
  exists e, snd (importAbc_loop handle spacing objs nss (p :: rest) l s) = Err e.
Proof.
  intros Hl. cbn [importAbc_loop]. rewrite bind_run.
  unfold importAbc_step. rewrite bind_run.
  destruct (fromPath handle p s) as [s1 [cache | e]]; [| by eexists].
  rewrite Hl. by eexists.
Qed.

(** X15. [importAbc] returns normally only when there is nothing to
    load: if it returns, the list of paths is empty and [option] is
    neither [None] nor ["replace all"]; and for such an [option] and an
    empty list, without dialog, it returns without touching the host. *)
Theorem importAbc_returns_only_without_paths
    (ps : list pystr) (spacing : Z) (objs opt nss : pyval) (s : St) :
  (forall showDialog : bool,
     snd (importAbc handle ps spacing objs opt nss showDialog s) = Ok tt ->
     ps = [] /\ py_is_none opt || py_eq_str opt (codes "replace all") = false)
  /\ (py_is_none opt || py_eq_str opt (codes "replace all") = false ->
      importAbc handle [] spacing objs opt nss false s = (s, Ok tt)).
Proof.
  split.
  - intros showDialog. unfold importAbc. rewrite bind_run.
    destruct (py_is_none opt || py_eq_str opt (codes "replace all")).
    { rewrite PasteOption_ReplaceCompletely. discriminate. }
    cbn [mret M_ret]. rewrite bind_run.
    destruct ps as [| p rest]; [done |].
    intros H. exfalso. revert H.
    match goal with
    | |- context [match ?d with _ => _ end] => destruct d as [s1 [sp | e]]
    end; [| discriminate].
    match goal with
    | |- context [importAbc_loop handle ?a ?b ?c (p :: rest) ?l s1] =>
        destruct (importAbc_loop_raises a b c p rest l s1 eq_refl) as [e He]
    end.
    rewrite He. discriminate.
  - intros Hopt. unfold importAbc. rewrite bind_run, Hopt. reflexivity.
Qed.

(** *** The validator and [Cache.save] *)

Lemma saveValidator_run
    (kw : kwargs) (s : St) (w' : World) (fields : list field)
    (byFrame : byFrameArg) (frameRange : option (Z * Z)) :
  handle _ (BaseSaveValidator kw) (world s) = (w', Returns fields) ->
  kw !! "byFrame" = byFrame_entry byFrame ->
  kw !! "frameRange" = frameRange_entry frameRange ->
  saveValidator handle kw s
  = (mkSt w' (trace s ++ [ev (BaseSaveValidator kw)]) (logs s),
     Ok (fields
         ++ (if byFrame_rejected byFrame then [byFrame_error] else [])
         ++ (if decide (fst (default (0, 1) frameRange)
                        >= snd (default (0, 1) frameRange))
             then [frameRange_error] else []))).
Proof.
  intros Hbase HbyFrame HframeRange.
  unfold saveValidator. rewrite bind_run, call_run, Hbase. cbn [fst snd].
  unfold dict_get, dict_get_or. rewrite HbyFrame, HframeRange.
  assert (Hby : (if py_eq_str (default VNone (byFrame_entry byFrame)) []
                 then Ok true
                 else py_lt (default (VInt 1) (byFrame_entry byFrame)) (VInt 1))
                = Ok (byFrame_rejected byFrame)).
  { destruct byFrame; reflexivity. }
  rewrite bind_run, Hby. cbn [lift].
  destruct frameRange as [[a b] |];
    cbv [frameRange_entry fmap option_fmap option_map default from_option
         id py_unpack2 lift mbind M_bind mret M_ret py_ge py_lt fst snd].
  - destruct (Z.ltb_spec a b); case_decide; try lia; cbn [negb];
      destruct (byFrame_rejected byFrame);
      by rewrite <- ?app_assoc, ?app_nil_r.
  - case_decide; [lia |]. cbn [negb Z.ltb Z.compare].
    destruct (byFrame_rejected byFrame); by rewrite ?app_nil_r.
Qed.

Lemma byFrame_error_ne_frameRange_error : byFrame_error <> frameRange_error.
Proof.
  intros H. apply (f_equal (fun m : field => m !! "name")) in H.
  vm_compute in H. discriminate H.
Qed.

(** X16. The validator and [Cache.save] agree on the frame range. For
    keyword arguments whose [frameRange] is a pair of integers (and whose
    [byFrame] is absent, [''] or an integer), [saveValidator] adds the
    ["frameRange"] error to the fields of the base validator exactly
    when [Cache.save] with that range as [time] raises
    [AnimationTransferError]. *)
Theorem saveValidator_agrees_with_save
    (kw : kwargs) (s : St) (w' : World) (fields : list field)
    (byFrame : byFrameArg) (a b : Z)
    (dest : pystr) (sampleBy : Z) (fileType : pyval) (exportUSD : bool)
    (o : Obj)
    (Hbase : handle _ (BaseSaveValidator kw) (world s) = (w', Returns fields))
    (HbyFrame : kw !! "byFrame" = byFrame_entry byFrame)
    (HframeRange : kw !! "frameRange" = frameRange_entry (Some (a, b))) :
  exists added : list field,
    snd (saveValidator handle kw s) = Ok (fields ++ added)
    /\ (frameRange_error ∈ added
        <-> exists e,
              snd (save handle dest (Some (Some a, Some b)) sampleBy fileType
                     exportUSD o) = Err e
              /\ is_AnimationTransferError e = true).
Proof.
  rewrite (saveValidator_run kw s w' fields byFrame (Some (a, b)))
    by assumption.
  cbn [snd fst default from_option id]. eexists. split; [reflexivity |].
  rewrite save_pair. rewrite elem_of_app.
  case_decide as Hd.
  - split.
    + intros _. eexists. by split.
    + intros _. right. by apply list_elem_of_singleton.
  - split.
    + intros [Hin | Hin].
      * destruct (byFrame_rejected byFrame).
        -- apply list_elem_of_singleton in Hin.
           by destruct byFrame_error_ne_frameRange_error.
        -- by apply elem_of_nil in Hin.
      * by apply elem_of_nil in Hin.
    + intros (e & He & Hate).
      destruct (save_checked _ _ _ _ _ _ _ _) as [o' r] eqn:E.
      cbn [snd] in He. subst r.
      apply quiet_save_checked in E. congruence.
Qed.

End MoreProperties.

Lemma findFirstLastKeyframes_inside_witness :
  scene_handle Z (FindKeyframe [codes "ctl_L_tx"] (codes "first")) (world st0)
  = (scene0, Returns 10)
  /\ scene_handle Z (FindKeyframe [codes "ctl_L_tx"] (codes "last")) scene0
     = (scene0, Returns 50)
  /\ exists (s' : St) (a b : Z),
       findFirstLastKeyframes scene_handle [codes "ctl_L_tx"] (Some (5, 30)) st0
       = (s', Ok (a, b))
       /\ world s' = scene0
       /\ 10 <= a /\ b <= 50
       /\ (5 <= 30 -> 10 <= 50 -> a <= b).
Proof.
  split; [reflexivity |]. split; [reflexivity |].
  apply (findFirstLastKeyframes_inside scene_handle [codes "ctl_L_tx"]
           (Some (5, 30)) st0 scene0 scene0 10 50); reflexivity.
Defined.

(** ** [exportAbc] and [CacheItem.loadSchema] *)

Section CallerProperties.

Context {World : Type}.
Context (handle : forall T : Type, hostE T -> World -> World * answer T).
Context (copyfile move : pyval -> pystr -> M (@St World) unit).
Context (fromObjects : pyval -> M (@St World) Cache).
Context (updateMetadata : option kwargs -> M (@Obj World) unit).
Context (BaseItem_loadSchema : M (@St World) (list field)).
Context (repr_seq : list pyval -> pystr).

Lemma on_Ok {A : Type} (c c' : Cache) (m : M (@Obj World) A)
    (s s' : @St World) (a : A) :
  on c m s = (s', Ok (c', a)) -> m (s, c) = ((s', c'), Ok a).
Proof.
  unfold on. destruct (m (s, c)) as [[s1 c1] [a1 | e]]; [| discriminate].
  by intros [= -> -> ->].
Qed.

(** A successful [save] leaves the object pointing at the bundle. *)
Lemma save_checked_path (dest : pystr) (start end_ sampleBy : Z)
    (fileType : pyval) (exportUSD : bool) (o o' : @Obj World) :
  save_checked handle dest start end_ sampleBy fileType exportUSD o
  = (o', Ok tt) ->
  path (snd o') = dest.
Proof.
  unfold save_checked. intros H.
  repeat (apply bind_Ok in H as (? & ? & _ & H)).
  match type of H with
  | setSelf _ ?st = _ => destruct st as [s c]
  end.
  cbn [setSelf] in H. by injection H as <-.
Qed.

(** X17. The cache [exportAbc] returns after a successful export of
    [(start, end)] with [start < end] carries [start] and [end] as its
    start and end frame and has the bundle directory as its path,
    whatever metadata was passed in ([Pose.save] being taken to leave
    the two frame entries alone). *)
Theorem exportAbc_returns_saved_cache
    (objs : pyval) (dest : pystr) (start end_ sampleBy : Z) (fileType : pyval)
    (exportUSD : bool) (md : option kwargs) (iconPath sequencePath : pyval)
    (s s' : @St World) (cache : Cache)
    (Hpose : PoseSave_keeps_frames handle)
    (Hlt : start < end_)
    (Hrun : exportAbc handle copyfile move fromObjects updateMetadata
              objs dest (Some (Some start, Some end_)) sampleBy fileType
              exportUSD md iconPath sequencePath s = (s', Ok cache)) :
  startFrame cache = VInt start
  /\ endFrame cache = VInt end_
  /\ path cache = dest.
Proof.
  unfold exportAbc in Hrun.
  apply bind_Ok in Hrun as (s1 & [] & _ & Hrun).
  apply bind_Ok in Hrun as (s2 & [] & _ & Hrun).
  apply bind_Ok in Hrun as (s3 & c0 & _ & Hrun).
  apply bind_Ok in Hrun as (s4 & [c1 []] & Hon & Hrun).
  injection Hrun as <- <-. cbn [fst].
  apply on_Ok in Hon.
  apply bind_Ok in Hon as ([s5 c2] & [] & _ & Hsave).
  rewrite save_pair in Hsave. case_decide; [lia |].
  pose proof (save_checked_frames _ _ _ _ _ _ _ _ _ _ Hpose Hsave) as [H1 H2].
  pose proof (save_checked_path _ _ _ _ _ _ _ _ Hsave) as H3.
  cbn [snd] in H1, H2, H3. unfold startFrame, endFrame, dict_get.
  by rewrite H1, H2.
Qed.

(** X18. [exportAbc] checks the frame range last. With a range of two
    integers that is not ordered ([start >= end]) it raises
    [AnimationTransferError], but only after the thumbnail has been
    copied, the image sequence moved, the cache built from the objects
    and its metadata updated: the state it leaves is the state after
    those steps. *)
Theorem exportAbc_checks_range_last
    (objs : pyval) (dest : pystr) (start end_ sampleBy : Z) (fileType : pyval)
    (exportUSD : bool) (md : option kwargs) (iconPath sequencePath : pyval)
    (s : @St World)
    (Hge : start >= end_) :
  exportAbc handle copyfile move fromObjects updateMetadata
    objs dest (Some (Some start, Some end_)) sampleBy fileType
    exportUSD md iconPath sequencePath s
  = match (when (py_truthy iconPath)
                (copyfile iconPath (dest ++ codes "/thumbnail.jpg")) ;;
           when (py_truthy sequencePath)
                (move sequencePath (dest ++ codes "/sequence")) ;;
           cache ← fromObjects objs;
           on cache (updateMetadata md)) s with
    | (s1, Ok _) => (s1, Err (AnimationTransferError save_msg_order))
    | (s1, Err e) => (s1, Err e)
    end.
Proof.
  unfold exportAbc. rewrite !bind_run.
  destruct (when (py_truthy iconPath) _ s) as [s1 [[] | e]]; [| reflexivity].
  rewrite !bind_run.
  destruct (when (py_truthy sequencePath) _ s1) as [s2 [[] | e]];
    [| reflexivity].
  rewrite !bind_run.
  destruct (fromObjects objs s2) as [s3 [c0 | e]]; [| reflexivity].
  rewrite bind_run. unfold on. rewrite bind_run.
  destruct (updateMetadata md (s3, c0)) as [[s4 c1] [[] | e]]; [| reflexivity].
  rewrite save_pair. case_decide; [reflexivity | lia].
Qed.

(** X19. [CacheItem.loadSchema] returns the rows of the base schema in
    their order with one row named ["Range"] inserted at index 3, or at
    the end when the base schema has fewer than three rows. Its value is
    ["start - end"] for integer frames, and ["0 - 0"] for a cache
    without frame annotations. *)
Theorem loadSchema_inserts_range_row
    (item_path : pystr) (s s1 s2 : @St World) (schema : list field)
    (cache : Cache)
    (Hbase : BaseItem_loadSchema s = (s1, Ok schema))
    (Hcache : fromPath handle item_path s1 = (s2, Ok cache)) :
  exists row : field,
    loadSchema handle BaseItem_loadSchema repr_seq item_path s
    = (s2, Ok (take 3 schema ++ row :: drop 3 schema))
    /\ row !! "name" = Some (VStr (codes "Range"))
    /\ (startFrame cache = VNone -> endFrame cache = VNone ->
        row !! "value" = Some (VStr (codes "0 - 0")))
    /\ (forall a b : Z,
          startFrame cache = VInt a -> endFrame cache = VInt b ->
          row !! "value"
          = Some (VStr (str_of_int a ++ codes " - " ++ str_of_int b))).
Proof.
  eexists. split; [| split; [| split]].
  - unfold loadSchema. rewrite bind_run, Hbase, bind_run, Hcache.
    reflexivity.
  - unfold range_row. by rewrite lookup_insert_ne, lookup_insert_eq.
  - intros -> ->. unfold range_row. by rewrite lookup_insert_eq.
  - intros a b -> ->. unfold range_row. rewrite lookup_insert_eq.
    do 3 f_equal; unfold py_or, py_truthy;
      match goal with
      | |- context [?x =? 0] => destruct (Z.eqb_spec x 0) as [-> |]
      end; reflexivity.
Qed.

End CallerProperties.

(** ** Keyframe insertion *)

Section KeyframeProperties.

Context {World : Type}.
Context (khandle : forall T : Type, keyE T -> World -> World * answer T).

Abbreviation KSt := (@KSt World).

Lemma kcall_run {T : Type} (e : keyE T) (s : KSt) :
  kcall khandle e s
  = (mkKSt (fst (khandle T e (kworld s))) (ktrace s ++ [kev e]),
     match snd (khandle T e (kworld s)) with
     | Returns v => Ok v
     | Raises cls msg => Err (HostError cls msg)
     end).
Proof. unfold kcall. by destruct (khandle T e (kworld s)). Qed.

Lemma emits_ret {A : Type} (P : kevent -> Prop) (a : A) :
  emits P (mret a : M KSt A).
Proof. intros s. exists []. by rewrite app_nil_r. Qed.

Lemma emits_bind {A B : Type} (P : kevent -> Prop)
    (m : M KSt A) (k : A -> M KSt B) :
  emits P m -> (forall a, emits P (k a)) -> emits P (m ≫= k).
Proof.
  intros Hm Hk s. rewrite bind_run. destruct (Hm s) as (l1 & E1 & H1).
  destruct (m s) as [s1 [a | e]]; cbn [fst] in *.
  - destruct (Hk a s1) as (l2 & E2 & H2).
    exists (l1 ++ l2). rewrite E2, E1, app_assoc. split; [done |].
    by apply Forall_app.
  - by exists l1.
Qed.

Lemma emits_kcall {T : Type} (P : kevent -> Prop) (e : keyE T) :
  P (kev e) -> emits P (kcall khandle e).
Proof.
  intros He s. rewrite kcall_run. exists [kev e]. split; [done |].
  by constructor.
Qed.

Lemma emits_for_each {A : Type} (P : kevent -> Prop) (xs : list A)
    (body : A -> M KSt unit) :
  (forall x, x ∈ xs -> emits P (body x)) -> emits P (for_each xs body).
Proof.
  induction xs as [| x xs IH]; intros Hb; cbn [for_each].
  - apply emits_ret.
  - apply emits_bind.
    + apply Hb. by left.
    + intros _. apply IH. intros y Hy. apply Hb. by right.
Qed.

Lemma emits_weaken {A : Type} (P Q : kevent -> Prop) (m : M KSt A) :
  (forall e, P e -> Q e) -> emits P m -> emits Q m.
Proof.
  intros HPQ Hm s. destruct (Hm s) as (l & E & Hl).
  exists l. split; [done |]. by eapply Forall_impl.
Qed.

Lemma insertStaticKeyframe_emits (curve : pystr) (startTime endTime : Z) :
  emits (key_edit_within (fun node => node = Curve curve)
           (Z.min startTime endTime) (Z.max startTime endTime))
    (insertStaticKeyframe khandle curve (startTime, endTime)).
Proof.
  unfold insertStaticKeyframe.
  apply emits_bind; [by apply emits_kcall | intros lastFrame].
  apply emits_bind; [by apply emits_kcall | intros firstFrame].
  apply emits_bind; [| intros _; apply emits_bind; [| intros _]].
  - unfold when. destruct (firstFrame =? lastFrame); [| apply emits_ret].
    apply emits_bind; [| intros _]; apply emits_kcall; cbn; repeat split; lia.
  - unfold when. destruct (startTime <? firstFrame); [| apply emits_ret].
    apply emits_bind; [by apply emits_kcall | intros nextFrame].
    destruct (Z.ltb_spec startTime nextFrame), (Z.ltb_spec nextFrame endTime);
      cbn [andb]; try apply emits_ret.
    apply emits_bind; [| intros _]; apply emits_kcall; cbn; repeat split; lia.
  - unfold when. destruct (endTime >? lastFrame); [| apply emits_ret].
    apply emits_bind; [by apply emits_kcall | intros previousFrame].
    destruct (Z.ltb_spec startTime previousFrame),
      (Z.ltb_spec previousFrame endTime);
      cbn [andb]; try apply emits_ret.
    apply emits_bind; [| intros _]; apply emits_kcall; cbn; repeat split; lia.
Qed.

(** X20. Whatever the host answers, [insertStaticKeyframe] touches only
    the given curve, inserts keys only on spans that lie between the
    start and the end of the given time, and sets no tangent other than
    a ["step"] out-tangent at one time of that range. *)
Theorem insertStaticKeyframe_within (curve : pystr) (startTime endTime : Z)
    (s : KSt) :
  exists sent : list kevent,
    ktrace (fst (insertStaticKeyframe khandle curve (startTime, endTime) s))
    = ktrace s ++ sent
    /\ Forall (key_edit_within (fun node => node = Curve curve)
                (Z.min startTime endTime) (Z.max startTime endTime)) sent.
Proof. apply insertStaticKeyframe_emits. Qed.

(** X21. Whatever the host answers, [insertKeyframe] touches only the
    given curves, one by one or as a list, and every key it inserts and
    every tangent it sets lies between the start and the end of the
    given time. *)
Theorem insertKeyframe_within (curves : list pystr) (startTime endTime : Z)
    (s : KSt) :
  exists sent : list kevent,
    ktrace (fst (insertKeyframe khandle curves (startTime, endTime) s))
    = ktrace s ++ sent
    /\ Forall (key_edit_within
                (fun node => node = CurveList curves
                             \/ exists c, c ∈ curves /\ node = Curve c)
                (Z.min startTime endTime) (Z.max startTime endTime)) sent.
Proof.
  revert s. change (emits (key_edit_within
                             (fun node => node = CurveList curves
                                \/ exists c, c ∈ curves /\ node = Curve c)
                             (Z.min startTime endTime) (Z.max startTime endTime))
                      (insertKeyframe khandle curves (startTime, endTime))).
  unfold insertKeyframe.
  apply emits_bind; [| intros _].
  { apply emits_for_each. intros c Hc.
    eapply emits_weaken; [| apply insertStaticKeyframe_emits].
    intros [T []]; cbn; intros H; repeat split; try tauto; try lia;
      right; exists c; tauto. }
  apply emits_bind; [apply emits_kcall; by left | intros firstFrame].
  apply emits_bind; [apply emits_kcall; by left | intros lastFrame].
  apply emits_bind; [| intros _].
  - unfold when. destruct (_ && _); [| apply emits_ret].
    apply emits_kcall; cbn. split; [by left | lia].
  - unfold when. destruct (_ && _); [| apply emits_ret].
    apply emits_kcall; cbn. split; [by left | lia].
Qed.

(** X22. On a curve whose first and last keys differ and enclose the
    given time ([first <= start] and [end <= last]),
    [insertStaticKeyframe] inserts nothing: it asks for the last and the
    first key and returns. *)
Theorem insertStaticKeyframe_covered
    (curve : pystr) (startTime endTime : Z) (s : KSt)
    (w1 w2 : World) (first last : Z)
    (Hlast : khandle Z (KFindKeyframe (Curve curve) None (codes "last"))
               (kworld s) = (w1, Returns last))
    (Hfirst : khandle Z (KFindKeyframe (Curve curve) None (codes "first")) w1
              = (w2, Returns first))
    (Hne : first <> last)
    (Hlo : first <= startTime)
    (Hhi : endTime <= last) :
  insertStaticKeyframe khandle curve (startTime, endTime) s
  = (mkKSt w2
       (ktrace s ++ [kev (KFindKeyframe (Curve curve) None (codes "last"));
                     kev (KFindKeyframe (Curve curve) None (codes "first"))]),
     Ok tt).
Proof.
  unfold insertStaticKeyframe.
  rewrite bind_run, kcall_run, Hlast. cbn [fst snd kworld ktrace].
  rewrite bind_run, kcall_run. cbn [fst snd kworld ktrace]. rewrite Hfirst.
  cbn [fst snd]. rewrite <- app_assoc. cbn [app].
  destruct (Z.eqb_spec first last); [done |].
  destruct (Z.ltb_spec startTime first); [lia |].
  destruct (Z.gtb_spec endTime last); [lia |].
  reflexivity.
Qed.

End KeyframeProperties.

(** ** [Cache.cleanMayaFile] *)

Lemma no_line_end_nil : no_line_end [].
Proof. split; apply not_elem_of_nil. Qed.

Lemma no_line_end_snoc (cur : pystr) (c : N) :
  no_line_end cur -> c <> 10%N -> c <> 13%N -> no_line_end (cur ++ [c]).
Proof.
  intros [H10 H13] Hc10 Hc13.
  split; rewrite elem_of_app, list_elem_of_singleton;
    (intros [? | ?]; [contradiction | congruence]).
Qed.

Lemma no_line_end_cons (c : N) (l : pystr) :
  no_line_end (c :: l) -> c <> 10%N /\ c <> 13%N /\ no_line_end l.
Proof.
  intros [H10 H13].
  apply not_elem_of_cons in H10 as [? ?].
  apply not_elem_of_cons in H13 as [? ?].
  repeat split; (congruence || done).
Qed.

Lemma lines_wf_cons (line : pystr) (rest : list pystr) :
  terminated line -> lines_wf rest -> lines_wf (line :: rest).
Proof. intros Ht Hr. cbn. destruct rest; [by left | by split]. Qed.

(** A text without carriage return is the concatenation of its lines. *)
Lemma readlines_from_concat (s cur : pystr) :
  13%N ∉ s -> concat (readlines_from cur s) = cur ++ s.
Proof.
  revert cur. induction s as [| c t IH]; intros cur Hs; cbn [readlines_from].
  - case_bool_decide as Hc; [by subst | cbn; by rewrite !app_nil_r].
  - apply not_elem_of_cons in Hs as [Hc Hs].
    destruct (N.eqb_spec c 10) as [-> | H10].
    + cbn [concat]. rewrite IH by done. cbn [app]. by rewrite <- app_assoc.
    + destruct (N.eqb_spec c 13) as [-> | H13]; [done |].
      rewrite IH by done. by rewrite <- app_assoc.
Qed.

Lemma readlines_from_wf_len (n : nat) (s cur : pystr) :
  (length s <= n)%nat -> no_line_end cur -> lines_wf (readlines_from cur s).
Proof.
  revert s cur. induction n as [| n IH]; intros s cur Hlen Hcur;
    destruct s as [| c t]; cbn [readlines_from length] in *; try lia;
    try (case_bool_decide; cbn; [done | by right]).
  assert (Hterm : terminated (cur ++ [10%N])) by by exists cur.
  destruct (N.eqb_spec c 10) as [-> | H10].
  - apply lines_wf_cons; [done |]. apply IH; [lia | apply no_line_end_nil].
  - destruct (N.eqb_spec c 13) as [-> | H13].
    + apply lines_wf_cons; [done |].
      destruct t as [| d t']; [done |]. cbn [length] in Hlen.
      destruct (d =? 10)%N; apply IH; cbn [length];
        (lia || apply no_line_end_nil).
    + apply IH; [lia | by apply no_line_end_snoc].
Qed.

Lemma readlines_from_wf (s cur : pystr) :
  no_line_end cur -> lines_wf (readlines_from cur s).
Proof. by apply (readlines_from_wf_len (length s)). Qed.

Lemma readlines_from_terminated (body cur t : pystr) :
  no_line_end body ->
  readlines_from cur (body ++ 10%N :: t)
  = (cur ++ body ++ [10%N]) :: readlines_from [] t.
Proof.
  revert cur. induction body as [| c body IH]; intros cur Hb; cbn.
  - done.
  - apply no_line_end_cons in Hb as (H10 & H13 & Hb).
    destruct (N.eqb_spec c 10); [done |].
    destruct (N.eqb_spec c 13); [done |].
    rewrite IH by done. by rewrite <- app_assoc.
Qed.

Lemma readlines_from_rest (l cur : pystr) :
  no_line_end l ->
  readlines_from cur l = if bool_decide (cur ++ l = []) then [] else [cur ++ l].
Proof.
  revert cur. induction l as [| c l IH]; intros cur Hl; cbn [readlines_from].
  - by rewrite app_nil_r.
  - apply no_line_end_cons in Hl as (H10 & H13 & Hl).
    destruct (N.eqb_spec c 10); [done |].
    destruct (N.eqb_spec c 13); [done |].
    rewrite IH by done. rewrite <- app_assoc. reflexivity.
Qed.

(** Reading back the lines that were written gives the same lines. *)
Lemma readlines_concat (lines : list pystr) :
  lines_wf lines -> readlines (concat lines) = lines.
Proof.
  unfold readlines. induction lines as [| l rest IH]; [done |].
  cbn [lines_wf concat]. destruct rest as [| l2 rest].
  - intros [(body & -> & Hb) | [Hne Hl]]; cbn [concat]; rewrite app_nil_r.
    + by rewrite (readlines_from_terminated body [] []).
    + rewrite readlines_from_rest by done. cbn [app]. by case_bool_decide.
  - intros [(body & -> & Hb) Hwf]. rewrite <- app_assoc. cbn [app].
    rewrite readlines_from_terminated by done. cbn [app]. by rewrite IH.
Qed.

Lemma End_not_select : is_select (codes "// End") = false.
Proof. by vm_compute. Qed.

Lemma clean_lines_wf (lines : list pystr) :
  lines_wf lines -> lines_wf (clean_lines lines).
Proof.
  induction lines as [| l rest IH]; [done |].
  cbn [clean_lines]. fold (is_select l).
  destruct (is_select l); cbn [negb].
  - intros _. cbn [lines_wf]. right. split; [done |].
    split; rewrite list_elem_of_In; vm_compute; intuition discriminate.
  - cbn [lines_wf]. destruct rest as [| l2 rest]; [done |].
    intros [Ht Hwf]. specialize (IH Hwf).
    destruct (clean_lines (l2 :: rest)) eqn:E; [by left | by split].
Qed.

Lemma clean_lines_no_select (lines : list pystr) :
  Forall (fun l => is_select l = false) (clean_lines lines).
Proof.
  induction lines as [| l rest IH]; [constructor |].
  cbn [clean_lines]. fold (is_select l).
  destruct (is_select l) eqn:E; cbn [negb].
  - constructor; [apply End_not_select | constructor].
  - by constructor.
Qed.

Lemma clean_lines_fixed (lines : list pystr) :
  Forall (fun l => is_select l = false) lines -> clean_lines lines = lines.
Proof.
  induction 1 as [| l rest Hl _ IH]; [done |].
  cbn [clean_lines]. fold (is_select l). rewrite Hl. cbn [negb]. by rewrite IH.
Qed.

Lemma clean_lines_cut (pre post : list pystr) (sel : pystr) :
  Forall (fun l => is_select l = false) pre -> is_select sel = true ->
  clean_lines (pre ++ sel :: post) = pre ++ [codes "// End"].
Proof.
  intros Hpre Hsel. induction Hpre as [| l rest Hl _ IH]; cbn [app clean_lines].
  - fold (is_select sel). by rewrite Hsel.
  - fold (is_select l). rewrite Hl. cbn [negb]. by rewrite IH.
Qed.

(** X23. [cleanMayaFile] cuts the file at the first line that starts
    with [select -ne]: the lines read before it are kept (as
    [readlines] gives them, each line end being a line feed), that line
    and all that follow are replaced by the text [// End] (without a
    line end), and no other file is written. *)
Theorem cleanMayaFile_cuts_at_select
    (p text sel : pystr) (pre post : list pystr) (fs : gmap pystr pystr)
    (Hfile : fs !! p = Some text)
    (Hlines : readlines text = pre ++ sel :: post)
    (Hpre : Forall (fun l => is_select l = false) pre)
    (Hsel : is_select sel = true) :
  cleanMayaFile p fs = (<[p := concat pre ++ codes "// End"]> fs, Ok tt).
Proof.
  unfold cleanMayaFile. rewrite bind_run. unfold read_file. rewrite Hfile.
  unfold write_lines. rewrite Hlines, clean_lines_cut by done.
  rewrite concat_app. cbn [concat]. by rewrite app_nil_r.
Qed.

(** X24. A file none of whose lines starts with [select -ne] is written
    back line by line as it was read, that is with every line end
    turned into a line feed; when its text holds no carriage return the
    files are left exactly as they were. *)
Theorem cleanMayaFile_keeps_clean_file
    (p text : pystr) (fs : gmap pystr pystr)
    (Hfile : fs !! p = Some text)
    (Hclean : Forall (fun l => is_select l = false) (readlines text)) :
  cleanMayaFile p fs = (<[p := concat (readlines text)]> fs, Ok tt)
  /\ (13%N ∉ text -> cleanMayaFile p fs = (fs, Ok tt)).
Proof.
  assert (E : cleanMayaFile p fs
              = (<[p := concat (readlines text)]> fs, Ok tt)).
  { unfold cleanMayaFile. rewrite bind_run. unfold read_file. rewrite Hfile.
    unfold write_lines. by rewrite clean_lines_fixed. }
  split; [exact E |].
  intros Hcr. rewrite E. unfold readlines.
  rewrite readlines_from_concat by done. cbn [app]. by rewrite insert_id.
Qed.


(** X26. [cleanMayaFile] is idempotent: cleaning a file that has been
    cleaned changes nothing and has the same outcome. *)
Theorem cleanMayaFile_idempotent (p : pystr) (fs : gmap pystr pystr) :
  cleanMayaFile p (fst (cleanMayaFile p fs)) = cleanMayaFile p fs.
Proof.
  unfold cleanMayaFile. rewrite !bind_run. unfold read_file.
  destruct (fs !! p) as [text |] eqn:Hfile; cbn [fst].
  - unfold write_lines. cbn [fst]. rewrite lookup_insert_eq.
    rewrite readlines_concat
      by apply clean_lines_wf, readlines_from_wf, no_line_end_nil.
    rewrite (clean_lines_fixed (clean_lines _))
      by apply clean_lines_no_select.
    by rewrite insert_insert_eq.
  - by rewrite Hfile.
Qed.

(** ** [Cache.setAnimCurve] and [Cache.animCurve] *)

(** X27. On an object that is in the dict, [setAnimCurve] stores the
    curve under ["curve"] of the given attribute, creating the
    attribute dicts that are missing, and keeps everything else: the
    other entries of that attribute, the other attributes, the rest of
    the object and the other objects. [animCurve] then returns the
    curve, prefixed with the import namespace when asked for and the
    curve name is not empty. *)
Theorem setAnimCurve_stores_curve
    (name attr curve : pystr) (objs : gmap pystr PoseObject) (o : PoseObject)
    (Hobj : objs !! name = Some o) :
  let attrs := default ∅ (po_attrs o) in
  let a := default ∅ (attrs !! attr) in
  exists (objs' : gmap pystr PoseObject) (o' : PoseObject)
         (attrs' : gmap pystr (gmap string pyval)) (a' : gmap string pyval),
    setAnimCurve name attr curve objs = Found objs'
    /\ objs' !! name = Some o'
    /\ po_attrs o' = Some attrs'
    /\ attrs' !! attr = Some a'
    /\ a' !! "curve" = Some (VStr curve)
    /\ (forall k, k <> "curve" -> a' !! k = a !! k)
    /\ (forall other, other <> attr -> attrs' !! other = attrs !! other)
    /\ po_other o' = po_other o
    /\ (forall n, n <> name -> objs' !! n = objs !! n)
    /\ animCurve a' false = Ok (VStr curve)
    /\ animCurve a' true
       = Ok (VStr (if bool_decide (curve = []) then curve
                   else IMPORT_NAMESPACE ++ codes ":" ++ curve)).
Proof.
  intros attrs a. unfold setAnimCurve. rewrite Hobj. fold attrs. fold a.
  do 4 eexists. split; [reflexivity |].
  split; [apply lookup_insert_eq |]. cbn [po_attrs po_other].
  split; [reflexivity |]. split; [apply lookup_insert_eq |].
  split; [apply lookup_insert_eq |].
  split; [intros k Hk; by rewrite lookup_insert_ne |].
  split; [intros k Hk; by rewrite lookup_insert_ne |].
  split; [reflexivity |].
  split; [intros n Hn; by rewrite lookup_insert_ne |].
  unfold animCurve, dict_get. rewrite lookup_insert_eq.
  cbn [default from_option id py_truthy]. rewrite andb_false_r, andb_true_r.
  split; [reflexivity |].
  case_bool_decide; cbn [negb py_add]; [done |]. by rewrite <- app_assoc.
Qed.

(** X28. On a name that is not in the dict [setAnimCurve] raises
    [KeyError] for that name. On a name that is in the dict it returns,
    and the last curve set for an attribute wins: setting a second curve
    after a first one gives the dict that setting the second one alone
    gives. *)
Theorem setAnimCurve_last_wins
    (name attr c1 c2 : pystr) (objs : gmap pystr PoseObject) :
  (objs !! name = None -> setAnimCurve name attr c1 objs = KeyError name)
  /\ (forall o : PoseObject, objs !! name = Some o ->
      exists objs1 : gmap pystr PoseObject,
        setAnimCurve name attr c1 objs = Found objs1
        /\ setAnimCurve name attr c2 objs1 = setAnimCurve name attr c2 objs).
Proof.
  split.
  - intros Hobj. unfold setAnimCurve. by rewrite Hobj.
  - intros o Hobj. unfold setAnimCurve at 1. rewrite Hobj.
    eexists. split; [reflexivity |].
    unfold setAnimCurve. rewrite Hobj, lookup_insert_eq.
    cbn [po_attrs po_other default from_option id].
    rewrite lookup_insert_eq. cbn [default from_option id].
    by rewrite !insert_insert_eq.
Qed.

(** ** Inputs on which two of the claims fail as stated *)

(** C8 fails as stated: with an option other than [None] and
    ["replace all"], on a bundle that is not on disk, the call does not
    fail on the unbound [startFrame] but with the exception of
    [Cache.fromPath]. *)
Lemma importAbc_fromPath_exception_first :
  snd (importAbc scene_handle [codes "/lib/none"] 1 VNone
         (VStr (codes "replace")) VNone false st0)
  = Err (HostError "IOError" (codes "No such file or directory"))
  /\ snd (importAbc scene_handle [codes "/lib/none"] 1 VNone
            (VStr (codes "replace")) VNone false st0)
     <> Err (UnboundLocalError "startFrame").
Proof. split; [vm_compute; reflexivity | vm_compute; discriminate]. Qed.

(** C9 fails as stated: for keyword arguments whose [byFrame] is [None],
    or whose [frameRange] is [None], [saveValidator] returns no fields:
    it raises [TypeError]. *)
Lemma saveValidator_rejects_None :
  snd (saveValidator scene_handle
         (<["byFrame" := VNone]> (<["name" := VStr (codes "walk")]> ∅)) st0)
  = Err (TypeError TypeError_operands)
  /\ snd (saveValidator scene_handle
            (<["frameRange" := VNone]> (<["name" := VStr (codes "walk")]> ∅))
            st0)
     = Err (TypeError TypeError_unpack).
Proof. split; vm_compute; reflexivity. Qed.

(** The file of a carriage return and a select line, as the code treats
    it: the carriage return ends the first line and is written back as a
    line feed. *)
Example cleanMayaFile_carriage_return :
  cleanMayaFile (codes "/lib/c.ma")
    (<[codes "/lib/c.ma" := codes "a" ++ [13%N] ++ codes "select -ne :time1;"
                              ++ [10%N]]> ∅)
  = (<[codes "/lib/c.ma" := codes "a" ++ [10%N] ++ codes "// End"]> ∅, Ok tt).
Proof. vm_compute. reflexivity. Qed.

(** ** The further statements on the sample host *)

Lemma open_never_imports_non_ascii_witness :
  (exists c, c ∈ path cache_accent /\ (128 <= c)%N)
  /\ (snd (open scene_handle (st0, cache_accent)) = Err (IOError open_msg)
      \/ exists cls msg,
           snd (open scene_handle (st0, cache_accent)) = Err (HostError cls msg))
  /\ imports (fst (fst (open scene_handle (st0, cache_accent)))) = imports st0
  /\ snd (fst (open scene_handle (st0, cache_accent))) = cache_accent.
Proof.
  assert (Hp : exists c, c ∈ path cache_accent /\ (128 <= c)%N).
  { exists 233%N. split; [| lia]. apply list_elem_of_In. vm_compute. tauto. }
  split; [exact Hp |].
  apply (open_never_imports_non_ascii scene_handle cache_accent st0 Hp).
Defined.

Lemma scene_PathExists_probes : PathExists_probes scene_handle.
Proof. intros p w. reflexivity. Defined.

Lemma paths_lists_existing_witness :
  PathExists_probes scene_handle
  /\ let there := exists_on scene_handle (world st0) in
     let mb := os_path_join (path cache0) (codes "animation.mb") in
     let ma := os_path_join (path cache0) (codes "animation.ma") in
     let pj := poseJsonPath cache0 in
     let listed := (if there mb then [mb] else if there ma then [ma] else [])
                   ++ (if there pj then [pj] else []) in
     exists s' : St,
       paths scene_handle (st0, cache0) = ((s', cache0), Ok listed)
       /\ world s' = world st0
       /\ Forall (fun q => there q = true) listed.
Proof.
  split; [exact scene_PathExists_probes |].
  apply (paths_lists_existing scene_handle st0 cache0 scene_PathExists_probes).
Defined.

Lemma save_needs_both_frames_witness :
  (@None Z = None \/ Some 20 = @None Z)
  /\ save scene_handle walk_dir (Some (None, Some 20)) 1 VNone false
       (st0, cache0)
     = ((st0, cache0), Err (AnimationTransferError save_msg_missing)).
Proof.
  split; [by left |].
  apply (save_needs_both_frames scene_handle walk_dir None (Some 20) 1 VNone
           false st0 cache0). by left.
Defined.

Lemma save_exports_once_witness :
  save scene_handle walk_dir (Some (Some 1, Some 20)) 1 VNone true
    (st0, cache0) = ((fst saved0, snd saved0), Ok tt)
  /\ exports (fst saved0)
     = exports st0
       ++ [ev (AbcExport
                 (abc_command 1 (20 + 1)
                    (str_join (codes " ")
                       ((fun object => codes "-root " ++ object)
                          <$> objects cache0))
                    (os_path_join walk_dir (codes "cache.abc"))))]
  /\ path (snd saved0) = walk_dir.
Proof.
  assert (Hs : save scene_handle walk_dir (Some (Some 1, Some 20)) 1 VNone true
                 (st0, cache0) = ((fst saved0, snd saved0), Ok tt))
    by (vm_compute; reflexivity).
  split; [exact Hs |].
  apply (save_exports_once scene_handle walk_dir 1 20 1 VNone true
           st0 (fst saved0) cache0 (snd saved0) Hs).
Defined.

Lemma saveValidator_agrees_with_save_witness :
  scene_handle _ (BaseSaveValidator kwargs0) (world st0) = (scene0, Returns [])
  /\ kwargs0 !! "byFrame" = byFrame_entry (ByFrameInt 0)
  /\ kwargs0 !! "frameRange" = frameRange_entry (Some (5, 5))
  /\ exists added : list field,
       snd (saveValidator scene_handle kwargs0 st0) = Ok ([] ++ added)
       /\ (frameRange_error ∈ added
           <-> exists e,
                 snd (save scene_handle walk_dir (Some (Some 5, Some 5)) 1
                        VNone false (st0, cache0)) = Err e
                 /\ is_AnimationTransferError e = true).
Proof.
  assert (Hb : scene_handle _ (BaseSaveValidator kwargs0) (world st0)
               = (scene0, Returns []))
    by (vm_compute; reflexivity).
  assert (H1 : kwargs0 !! "byFrame" = byFrame_entry (ByFrameInt 0))
    by (vm_compute; reflexivity).
  assert (H2 : kwargs0 !! "frameRange" = frameRange_entry (Some (5, 5)))
    by (vm_compute; reflexivity).
  split; [exact Hb |]. split; [exact H1 |]. split; [exact H2 |].
  apply (saveValidator_agrees_with_save scene_handle kwargs0 st0 scene0 []
           (ByFrameInt 0) 5 5 walk_dir 1 VNone false (st0, cache0) Hb H1 H2).
Defined.

Lemma exportAbc_returns_saved_cache_witness :
  PoseSave_keeps_frames scene_handle
  /\ 1 < 20
  /\ exported0 = (fst exported0, Ok exported_cache0)
  /\ startFrame exported_cache0 = VInt 1
  /\ endFrame exported_cache0 = VInt 20
  /\ path exported_cache0 = walk_dir.
Proof.
  assert (Hr : exported0 = (fst exported0, Ok exported_cache0))
    by (vm_compute; reflexivity).
  split; [exact scene_PoseSave_keeps_frames |]. split; [lia |].
  split; [exact Hr |].
  apply (exportAbc_returns_saved_cache scene_handle scene_put_file
           scene_put_file scene_fromObjects scene_updateMetadata
           (VSeq [VStr (codes "ctl_L"); VStr (codes "ctl_R")]) walk_dir 1 20 1
           VNone false (Some description0) (VStr (codes "/tmp/thumb.jpg")) VNone
           st0 (fst exported0) exported_cache0
           scene_PoseSave_keeps_frames); [lia | exact Hr].
Defined.

Lemma exportAbc_checks_range_last_witness :
  20 >= 20
  /\ refused0
     = match (when (py_truthy (VStr (codes "/tmp/thumb.jpg")))
                   (scene_put_file (VStr (codes "/tmp/thumb.jpg"))
                      (walk_dir ++ codes "/thumbnail.jpg")) ;;
              when (py_truthy VNone)
                   (scene_put_file VNone (walk_dir ++ codes "/sequence")) ;;
              cache ← scene_fromObjects (VSeq [VStr (codes "ctl_L")]);
              on cache (scene_updateMetadata (Some description0))) st0 with
       | (s1, Ok _) => (s1, Err (AnimationTransferError save_msg_order))
       | (s1, Err e) => (s1, Err e)
       end.
Proof.
  split; [lia |].
  apply (exportAbc_checks_range_last scene_handle scene_put_file
           scene_put_file scene_fromObjects scene_updateMetadata
           (VSeq [VStr (codes "ctl_L")]) walk_dir 20 20 1 VNone false
           (Some description0) (VStr (codes "/tmp/thumb.jpg")) VNone st0).
  lia.
Defined.

Lemma loadSchema_inserts_range_row_witness :
  (mret schema0 : M St (list field)) st0 = (st0, Ok schema0)
  /\ fromPath scene_handle walk_dir st0
     = (fst (fromPath scene_handle walk_dir st0), Ok loaded_cache0)
  /\ exists row : field,
       loadSchema scene_handle (mret schema0) scene_repr_seq walk_dir st0
       = (fst (fromPath scene_handle walk_dir st0),
          Ok (take 3 schema0 ++ row :: drop 3 schema0))
       /\ row !! "name" = Some (VStr (codes "Range"))
       /\ (startFrame loaded_cache0 = VNone -> endFrame loaded_cache0 = VNone ->
           row !! "value" = Some (VStr (codes "0 - 0")))
       /\ (forall a b : Z,
             startFrame loaded_cache0 = VInt a -> endFrame loaded_cache0 = VInt b ->
             row !! "value"
             = Some (VStr (str_of_int a ++ codes " - " ++ str_of_int b))).
Proof.
  assert (Hc : fromPath scene_handle walk_dir st0
               = (fst (fromPath scene_handle walk_dir st0), Ok loaded_cache0))
    by (vm_compute; reflexivity).
  split; [reflexivity |]. split; [exact Hc |].
  apply (loadSchema_inserts_range_row scene_handle (mret schema0)
           scene_repr_seq walk_dir st0 st0
           (fst (fromPath scene_handle walk_dir st0)) schema0 loaded_cache0
           eq_refl Hc).
Defined.

Lemma insertStaticKeyframe_covered_witness :
  curve_handle Z (KFindKeyframe (Curve (codes "ctl_L_tx")) None (codes "last"))
    (kworld kst0) = ((1, 100), Returns 100)
  /\ curve_handle Z (KFindKeyframe (Curve (codes "ctl_L_tx")) None (codes "first"))
       (1, 100) = ((1, 100), Returns 1)
  /\ 1 <> 100 /\ 1 <= 10 /\ 20 <= 100
  /\ insertStaticKeyframe curve_handle (codes "ctl_L_tx") (10, 20) kst0
     = (mkKSt (1, 100)
          (ktrace kst0
             ++ [kev (KFindKeyframe (Curve (codes "ctl_L_tx")) None (codes "last"));
                 kev (KFindKeyframe (Curve (codes "ctl_L_tx")) None (codes "first"))]),
        Ok tt).
Proof.
  split; [reflexivity |]. split; [reflexivity |].
  split; [lia |]. split; [lia |]. split; [lia |].
  apply (insertStaticKeyframe_covered curve_handle (codes "ctl_L_tx") 10 20
           kst0 (1, 100) (1, 100) 1 100); (reflexivity || lia).
Defined.

Lemma cleanMayaFile_cuts_at_select_witness :
  disk0 !! codes "/lib/a.ma" = Some scene_text
  /\ readlines scene_text
     = [codes "createNode animCurveTL -n ctl_L_tx;" ++ [10%N]]
         ++ (codes "select -ne :time1;" ++ [10%N])
         :: [codes "setAttr .o 1;" ++ [10%N]]
  /\ cleanMayaFile (codes "/lib/a.ma") disk0
     = (<[codes "/lib/a.ma" :=
            concat [codes "createNode animCurveTL -n ctl_L_tx;" ++ [10%N]]
              ++ codes "// End"]> disk0, Ok tt).
Proof.
  assert (Hf : disk0 !! codes "/lib/a.ma" = Some scene_text)
    by (vm_compute; reflexivity).
  assert (Hl : readlines scene_text
               = [codes "createNode animCurveTL -n ctl_L_tx;" ++ [10%N]]
                   ++ (codes "select -ne :time1;" ++ [10%N])
                   :: [codes "setAttr .o 1;" ++ [10%N]])
    by (vm_compute; reflexivity).
  split; [exact Hf |]. split; [exact Hl |].
  apply (cleanMayaFile_cuts_at_select (codes "/lib/a.ma") scene_text
           (codes "select -ne :time1;" ++ [10%N])
           [codes "createNode animCurveTL -n ctl_L_tx;" ++ [10%N]]
           [codes "setAttr .o 1;" ++ [10%N]] disk0 Hf Hl).
  - repeat constructor.
  - by vm_compute.
Defined.

Lemma cleanMayaFile_keeps_clean_file_witness :
  disk0 !! codes "/lib/b.ma" = Some clean_text
  /\ Forall (fun l => is_select l = false) (readlines clean_text)
  /\ cleanMayaFile (codes "/lib/b.ma") disk0
     = (<[codes "/lib/b.ma" := concat (readlines clean_text)]> disk0, Ok tt)
  /\ (13%N ∉ clean_text ->
      cleanMayaFile (codes "/lib/b.ma") disk0 = (disk0, Ok tt)).
Proof.
  assert (Hf : disk0 !! codes "/lib/b.ma" = Some clean_text)
    by (vm_compute; reflexivity).
  assert (Hc : Forall (fun l => is_select l = false) (readlines clean_text)).
  { assert (E : readlines clean_text
                = [codes "createNode animCurveTL -n ctl_L_tx;" ++ [10%N];
                   codes "// End"]) by (vm_compute; reflexivity).
    rewrite E. repeat constructor; by vm_compute. }
  split; [exact Hf |]. split; [exact Hc |].
  apply (cleanMayaFile_keeps_clean_file (codes "/lib/b.ma") clean_text disk0
           Hf Hc).
Defined.

Lemma setAnimCurve_stores_curve_witness :
  pose_objects0 !! codes "ctl_L" = Some pose_ctl0
  /\ exists (objs' : gmap pystr PoseObject) (o' : PoseObject)
            (attrs' : gmap pystr (gmap string pyval)) (a' : gmap string pyval),
       setAnimCurve (codes "ctl_L") (codes "tx") (codes "ctl_L_tx") pose_objects0
       = Found objs'
       /\ objs' !! codes "ctl_L" = Some o'
       /\ po_attrs o' = Some attrs'
       /\ attrs' !! codes "tx" = Some a'
       /\ a' !! "curve" = Some (VStr (codes "ctl_L_tx"))
       /\ a' !! "value" = Some (VInt 3).
Proof.
  assert (Ho : pose_objects0 !! codes "ctl_L" = Some pose_ctl0)
    by (vm_compute; reflexivity).
  split; [exact Ho |].
  destruct (setAnimCurve_stores_curve (codes "ctl_L") (codes "tx")
              (codes "ctl_L_tx") pose_objects0 pose_ctl0 Ho)
    as (objs' & o' & attrs' & a' & H1 & H2 & H3 & H4 & H5 & H6 & _).
  exists objs', o', attrs', a'. repeat (split; [assumption |]).
  rewrite H6 by done. by vm_compute.
Defined.
